(** * TimeCompactor and FRAP set-up scripts: a shallow embedding

    The two Jython scripts [deepTime_buddy.py] and [dialog_FRAP.py] are
    translated statement by statement into a small state-and-exception
    monad.  The state is the store of ImageJ image objects (so that two
    Python names bound to the same [ImagePlus] alias each other) together
    with the chronological trace of the calls the scripts make into ImageJ
    (dialogs, log lines, duplications, channel splits, projections).

    ImageJ itself is an external collaborator.  Its classes are modelled at
    the level the scripts use them: an image is a flat stack of planes with
    its dimensions, title and time calibration; the pixel reduction done by
    the projector is a parameter [reduce] of the development. *)

From Stdlib Require Import ZArith QArith String List DecimalString DecimalNat.
From stdpp Require Import base list strings gmap.

Local Open Scope string_scope.
Local Open Scope Z_scope.

(** ** Python-level values *)

(** Exceptions a run can end with.  [RuntimeException] is the name written
    in [deepTime_buddy.py] line 64 (the module does not import it, so a
    Jython interpreter without automatic Java imports reports the unbound
    name instead; in both cases the run stops at that statement with an
    uncaught exception).  [JavaException] stands for an exception thrown
    inside an ImageJ call. *)
Inductive exn : Type :=
  | RuntimeException (msg : string)
  | AttributeError (receiver attr : string)
  | TypeError (msg : string)
  | IndexError
  | KeyError (key : string)
  | ValueError (text : string)
  | JavaException (cls : string).

Inductive result (A : Type) : Type :=
  | Ok (a : A)
  | Raise (e : exn).
Arguments Ok {A} a.
Arguments Raise {A} e.

(** [ZProjector.AVG_METHOD] ... [ZProjector.MEDIAN_METHOD]. *)
Inductive ZMethod : Type :=
  | AVG_METHOD | MAX_METHOD | MIN_METHOD | SUM_METHOD | SD_METHOD | MEDIAN_METHOD.

(** Python's [int(x)] on a finite number: truncation towards zero. *)
Definition py_int (q : Q) : Z := Z.quot (Qnum q) (Z.pos (Qden q)).

(** Python's [str(n)] on a non-negative integer and [int(s)] on a string of
    decimal digits ([ValueError] otherwise). *)
Definition py_str (n : nat) : string := NilEmpty.string_of_uint (Nat.to_uint n).

Definition py_int_of_string (s : string) : result Z :=
  match NilEmpty.uint_of_string s with
  | Some d => Ok (Z.of_nat (Nat.of_uint d))
  | None => Raise (ValueError s)
  end.

(** Python's [range(a, b)]. *)
Definition py_range (a b : nat) : list nat := seq a (b - a).

(** Python's [l[i]]: a negative index counts from the end, anything outside
    [-len, len) raises [IndexError]. *)
Definition py_getitem {A : Type} (l : list A) (i : Z) : result A :=
  let n := Z.of_nat (length l) in
  let j := if i <? 0 then i + n else i in
  if (0 <=? j) && (j <? n)
  then match l !! Z.to_nat j with Some x => Ok x | None => Raise IndexError end
  else Raise IndexError.

(** ** ImageJ objects *)

(** [ij.measure.Calibration], the two fields the scripts touch. *)
Record Calibration : Type := mkCalibration {
  frameInterval : Q;
  timeUnit : string
}.

Definition default_calibration : Calibration :=
  {| frameInterval := 0%Q; timeUnit := "sec" |}.

(** References to image objects: positions in the store. *)
Definition ref : Type := nat.

(** Calls into ImageJ that a run performs, in order. *)
Inductive event : Type :=
  | EvShowDialog (title : string)
  | EvLog (msg : string)
  | EvShowMessage (msg : string)
  | EvDuplicate (src : ref) (first last : Z) (dst : ref)
  | EvSplit (src : ref) (dsts : list ref)
  | EvProject (src : ref) (start stop : Z) (m : ZMethod) (dst : ref)
  | EvPrint (imp : ref) (max_frame manual_frame : Z) (flag : bool).

(** [ij.gui.GenericDialog]: the fields in the order they were added, one
    list per kind as in ImageJ (a slider is a numeric field), and the
    read cursors, which the [getNext...] calls advance by consuming the
    head of the list. *)
Record GenericDialog : Type := mkDialog {
  gd_title : string;
  gd_numbers : list Q;
  gd_strings : list string;
  gd_choices : list (list string * string);
  gd_checkboxes : list bool;
  gd_canceled : bool
}.

(** What the user does with a dialog: cancel it or edit fields.  The i-th
    typed value replaces the i-th field of that kind; fields beyond the
    typed ones keep their defaults.  A choice is picked by position in its
    item list. *)
Record UserInput : Type := mkUser {
  cancel : bool;
  typed_numbers : list Q;
  typed_strings : list string;
  picked : list nat;
  ticked : list bool
}.

Fixpoint overlay {A : Type} (typed defaults : list A) {struct defaults} : list A :=
  match defaults, typed with
  | [], _ => []
  | d :: ds, [] => d :: ds
  | _ :: ds, t :: ts => t :: overlay ts ds
  end.

Fixpoint pick (picks : list nat) (fields : list (list string * string))
  {struct fields} : list (list string * string) :=
  match fields, picks with
  | [], _ => []
  | f :: fs, [] => f :: fs
  | (items, cur) :: fs, p :: ps =>
      (items, match items !! p with Some s => s | None => cur end) :: pick ps fs
  end.

Definition new_dialog (title : string) : GenericDialog :=
  mkDialog title [] [] [] [] false.

Definition addNumericField (gd : GenericDialog) (default : Q) : GenericDialog :=
  mkDialog (gd_title gd) (gd_numbers gd ++ [default]) (gd_strings gd)
           (gd_choices gd) (gd_checkboxes gd) (gd_canceled gd).

(** [addSlider(label, min, max, default)]: a numeric field with a slider. *)
Definition addSlider (gd : GenericDialog) (lo hi default : Q) : GenericDialog :=
  addNumericField gd default.

Definition addStringField (gd : GenericDialog) (default : string) : GenericDialog :=
  mkDialog (gd_title gd) (gd_numbers gd) (gd_strings gd ++ [default])
           (gd_choices gd) (gd_checkboxes gd) (gd_canceled gd).

Definition addChoice (gd : GenericDialog) (items : list string) (default : string)
  : GenericDialog :=
  mkDialog (gd_title gd) (gd_numbers gd) (gd_strings gd)
           (gd_choices gd ++ [(items, default)]) (gd_checkboxes gd) (gd_canceled gd).

Definition addCheckbox (gd : GenericDialog) (default : bool) : GenericDialog :=
  mkDialog (gd_title gd) (gd_numbers gd) (gd_strings gd)
           (gd_choices gd) (gd_checkboxes gd ++ [default]) (gd_canceled gd).

Definition fill_in (user : UserInput) (gd : GenericDialog) : GenericDialog :=
  mkDialog (gd_title gd)
           (overlay (typed_numbers user) (gd_numbers gd))
           (overlay (typed_strings user) (gd_strings gd))
           (pick (picked user) (gd_choices gd))
           (overlay (ticked user) (gd_checkboxes gd))
           (cancel user).

Definition ceil_div (l w : nat) : nat := ((l + w - 1) / w)%nat.

Section Scripts.

(** A plane of pixels is opaque to the scripts. *)
Context {Frame : Type}.

(** The pixel-wise statistical reduction performed by [ZProjector]. *)
Variable reduce : ZMethod -> list Frame -> Frame.

(** [ij.ImagePlus]: title, calibration, dimensions, current frame and the
    flat stack of planes (channel index varying fastest). *)
Record ImagePlus : Type := mkImagePlus {
  title : string;
  calibration : Calibration;
  nChannels : nat;
  nSlices : nat;
  nFrames : nat;
  frame : nat;
  stack : list Frame
}.

Definition getStackSize (img : ImagePlus) : nat := length (stack img).

(** The store of image objects and the trace of ImageJ calls. *)
Record World : Type := mkWorld {
  heap : list ImagePlus;
  trace : list event
}.

Definition M (A : Type) : Type := World -> result A * World.

Definition ret {A : Type} (a : A) : M A := fun w => (Ok a, w).

Definition bind {A B : Type} (m : M A) (k : A -> M B) : M B :=
  fun w => match m w with
           | (Ok a, w') => k a w'
           | (Raise e, w') => (Raise e, w')
           end.

Definition raise {A : Type} (e : exn) : M A := fun w => (Raise e, w).

Definition lift {A : Type} (r : result A) : M A := fun w => (r, w).

Definition emit (e : event) : M unit :=
  fun w => (Ok tt, mkWorld (heap w) (trace w ++ [e])).

Definition deref (r : ref) : M ImagePlus :=
  fun w => match heap w !! r with
           | Some img => (Ok img, w)
           | None => (Raise (JavaException "NullPointerException"), w)
           end.

Definition alloc (img : ImagePlus) : M ref :=
  fun w => (Ok (length (heap w)), mkWorld (heap w ++ [img]) (trace w)).

Definition update (r : ref) (f : ImagePlus -> ImagePlus) : M unit :=
  fun w => match heap w !! r with
           | Some img => (Ok tt, mkWorld (<[r := f img]> (heap w)) (trace w))
           | None => (Raise (JavaException "NullPointerException"), w)
           end.

Notation "x <- m ;; k" := (bind m (fun x => k))
  (at level 100, m at next level, right associativity).
Notation "m ;; k" := (bind m (fun _ => k))
  (at level 100, right associativity).

(** *** ImagePlus accessors *)

Definition getTitle (imp : ref) : M string := img <- deref imp ;; ret (title img).
Definition getCalibration (imp : ref) : M Calibration :=
  img <- deref imp ;; ret (calibration img).
Definition getNChannels (imp : ref) : M nat := img <- deref imp ;; ret (nChannels img).
Definition getNFrames (imp : ref) : M nat := img <- deref imp ;; ret (nFrames img).
Definition getFrame (imp : ref) : M nat := img <- deref imp ;; ret (frame img).
Definition getImageStack (imp : ref) : M (list Frame) :=
  img <- deref imp ;; ret (stack img).
Definition createEmptyStack (imp : ref) : M (list Frame) :=
  _ <- deref imp ;; ret [].

Definition with_calibration (img : ImagePlus) (c : Calibration) : ImagePlus :=
  mkImagePlus (title img) c (nChannels img) (nSlices img) (nFrames img)
              (frame img) (stack img).

(** [imp.getCalibration()] hands out the image's own calibration object, so
    a Python name bound to it is an alias: it is represented by the
    reference of the owning image, and field writes go to the store. *)
Definition set_frameInterval (cal : ref) (x : Q) : M unit :=
  update cal (fun img =>
    with_calibration img (mkCalibration x (timeUnit (calibration img)))).

Definition setTimeUnit (cal : ref) (u : string) : M unit :=
  update cal (fun img =>
    with_calibration img (mkCalibration (frameInterval (calibration img)) u)).

(** [imp.setCalibration(cal)] stores a copy of the object behind [cal]. *)
Definition setCalibration (imp cal : ref) : M unit :=
  c <- getCalibration cal ;; update imp (fun img => with_calibration img c).

(** *** Dialog interaction *)

(** [gd.addMessage(text)] adds a label, no field. *)
Definition addMessage (gd : GenericDialog) (text : string) : GenericDialog := gd.

Definition showDialog (user : UserInput) (gd : GenericDialog) : M GenericDialog :=
  emit (EvShowDialog (gd_title gd)) ;; ret (fill_in user gd).

(** The [getNext...] methods.  The receiver may be Python's [None] (what
    [setupDialog] returns after a cancel): then the attribute access
    raises. *)
Definition getNextNumber (gd : option GenericDialog) : M (Q * option GenericDialog) :=
  match gd with
  | None => raise (AttributeError "NoneType" "getNextNumber")
  | Some g =>
      match gd_numbers g with
      | x :: rest =>
          ret (x, Some (mkDialog (gd_title g) rest (gd_strings g) (gd_choices g)
                                 (gd_checkboxes g) (gd_canceled g)))
      | [] => raise (JavaException "ArrayIndexOutOfBoundsException")
      end
  end.

Definition getNextString (gd : option GenericDialog) : M (string * option GenericDialog) :=
  match gd with
  | None => raise (AttributeError "NoneType" "getNextString")
  | Some g =>
      match gd_strings g with
      | x :: rest =>
          ret (x, Some (mkDialog (gd_title g) (gd_numbers g) rest (gd_choices g)
                                 (gd_checkboxes g) (gd_canceled g)))
      | [] => raise (JavaException "ArrayIndexOutOfBoundsException")
      end
  end.

Definition getNextChoice (gd : option GenericDialog) : M (string * option GenericDialog) :=
  match gd with
  | None => raise (AttributeError "NoneType" "getNextChoice")
  | Some g =>
      match gd_choices g with
      | (_, x) :: rest =>
          ret (x, Some (mkDialog (gd_title g) (gd_numbers g) (gd_strings g) rest
                                 (gd_checkboxes g) (gd_canceled g)))
      | [] => raise (JavaException "ArrayIndexOutOfBoundsException")
      end
  end.

Definition getNextBoolean (gd : option GenericDialog) : M (bool * option GenericDialog) :=
  match gd with
  | None => raise (AttributeError "NoneType" "getNextBoolean")
  | Some g =>
      match gd_checkboxes g with
      | x :: rest =>
          ret (x, Some (mkDialog (gd_title g) (gd_numbers g) (gd_strings g)
                                 (gd_choices g) rest (gd_canceled g)))
      | [] => raise (JavaException "ArrayIndexOutOfBoundsException")
      end
  end.

(** *** ij.plugin.Duplicator *)

(** Planes [first..last] of a stack, counted from 1. *)
Definition slices (st : list Frame) (first last : Z) : list Frame :=
  firstn (Z.to_nat (last - first + 1)) (skipn (Z.to_nat (first - 1)) st).

(** [Duplicator().run(imp, first, last)]: a new image holding copies of the
    planes [first..last], titled with the prefix DUP_, with a copy of the
    calibration; a plane number outside the stack makes ImageJ throw. *)
Definition Duplicator_run (imp : ref) (first last : Z) : M ref :=
  img <- deref imp ;;
  if (1 <=? first) && (first <=? last) && (last <=? Z.of_nat (getStackSize img))
  then
    let st := slices (stack img) first last in
    let tseries := Nat.eqb (nFrames img) (getStackSize img) in
    dst <- alloc (mkImagePlus ("DUP_" ++ title img) (calibration img) 1
                    (if tseries then 1%nat else length st)
                    (if tseries then length st else 1%nat) 1 st) ;;
    emit (EvDuplicate imp first last dst) ;;
    ret dst
  else raise (JavaException "IllegalArgumentException").

(** *** ij.plugin.ChannelSplitter *)

(** The planes of channel [c] (counted from 0) of a stack with [n]
    interleaved channels. *)
Definition channel_planes (n c : nat) (st : list Frame) : list Frame :=
  map snd (List.filter (fun p => Nat.eqb (fst p mod n) c)
                       (combine (seq 0 (length st)) st)).

Definition channel_image (img : ImagePlus) (c : nat) : ImagePlus :=
  mkImagePlus ("C" ++ py_str (S c) ++ "-" ++ title img) (calibration img) 1
              (nSlices img) (nFrames img) 1
              (channel_planes (nChannels img) c (stack img)).

Fixpoint alloc_all (imgs : list ImagePlus) : M (list ref) :=
  match imgs with
  | [] => ret []
  | i :: rest => r <- alloc i ;; rs <- alloc_all rest ;; ret (r :: rs)
  end.

(** [ChannelSplitter.split(imp)]: one new image per channel, in channel
    order. *)
Definition ChannelSplitter_split (imp : ref) : M (list ref) :=
  img <- deref imp ;;
  dsts <- alloc_all (map (channel_image img) (seq 0 (nChannels img))) ;;
  emit (EvSplit imp dsts) ;;
  ret dsts.

(** *** ij.plugin.ZProjector *)

Record ZProjector : Type := mkZProjector {
  zp_imp : ref;
  startSlice : Z;
  stopSlice : Z;
  method : ZMethod;
  projImage : option ref
}.

(** [ZProjector(imp)]: the projector keeps the reference it is given and
    starts with the whole stack selected. *)
Definition new_ZProjector (imp : ref) : M ZProjector :=
  img <- deref imp ;;
  ret (mkZProjector imp 1 (Z.of_nat (getStackSize img)) MAX_METHOD None).

Definition setMethod (zp : ZProjector) (m : ZMethod) : ZProjector :=
  mkZProjector (zp_imp zp) (startSlice zp) (stopSlice zp) m (projImage zp).

(** [setStartSlice] and [setStopSlice] ignore a plane number outside the
    stack. *)
Definition setStartSlice (zp : ZProjector) (slice : Z) : M ZProjector :=
  img <- deref (zp_imp zp) ;;
  if (slice <? 1) || (Z.of_nat (getStackSize img) <? slice) then ret zp
  else ret (mkZProjector (zp_imp zp) slice (stopSlice zp) (method zp) (projImage zp)).

Definition setStopSlice (zp : ZProjector) (slice : Z) : M ZProjector :=
  img <- deref (zp_imp zp) ;;
  if (slice <? 1) || (Z.of_nat (getStackSize img) <? slice) then ret zp
  else ret (mkZProjector (zp_imp zp) (startSlice zp) slice (method zp) (projImage zp)).

Definition method_prefix (m : ZMethod) : string :=
  match m with
  | AVG_METHOD => "AVG_" | MAX_METHOD => "MAX_" | MIN_METHOD => "MIN_"
  | SUM_METHOD => "SUM_" | SD_METHOD => "STD_" | MEDIAN_METHOD => "MED_"
  end.

(** [zp.doProjection()]: reduces the planes [startSlice..stopSlice] of the
    projector's own image into a new one-plane image. *)
Definition doProjection (zp : ZProjector) : M ZProjector :=
  img <- deref (zp_imp zp) ;;
  let plane := reduce (method zp) (slices (stack img) (startSlice zp) (stopSlice zp)) in
  dst <- alloc (mkImagePlus (method_prefix (method zp) ++ title img)
                  default_calibration 1 1 1 1 [plane]) ;;
  emit (EvProject (zp_imp zp) (startSlice zp) (stopSlice zp) (method zp) dst) ;;
  ret (mkZProjector (zp_imp zp) (startSlice zp) (stopSlice zp) (method zp) (Some dst)).

Definition getProjection (zp : ZProjector) : option ref := projImage zp.

(** ** deepTime_buddy.py *)

(** Lines 44-46. *)
Definition methods_as_strings : list string :=
  ["Average Intensity"; "Max Intensity"; "Min Intensity"; "Sum Slices";
   "Standard Deviation"; "Median"].

Definition methods_as_const : list ZMethod :=
  [AVG_METHOD; MAX_METHOD; MIN_METHOD; SUM_METHOD; SD_METHOD; MEDIAN_METHOD].

Definition medthod_dict : gmap string ZMethod :=
  list_to_map (zip methods_as_strings methods_as_const).

(** Python's [d[key]]. *)
Definition dict_getitem (d : gmap string ZMethod) (key : string) : result ZMethod :=
  match d !! key with
  | Some v => Ok v
  | None => Raise (KeyError key)
  end.

(** Lines 11-36.  The result is [None] after a cancel. *)
Definition setupDialog (user : UserInput) (imp : ref) : M (option GenericDialog) :=
  let gd := new_dialog "TimeCompactor options" in
  ttl <- getTitle imp ;;
  let gd := addMessage gd ("Welcome to TimeCompactor 0.1, you are analyzing: " ++ ttl) in
  calibration <- getCalibration imp ;;
  let default_interval :=
    if Qle_bool (frameInterval calibration) 0 then 0%Q
    else frameInterval calibration in
  let gd := addNumericField gd default_interval in
  let gd := addStringField gd (timeUnit calibration) in
  n1 <- getNFrames imp ;;
  f1 <- getFrame imp ;;
  let gd := addSlider gd 1 (inject_Z (Z.of_nat n1)) (inject_Z (Z.of_nat f1)) in
  n2 <- getNFrames imp ;;
  n3 <- getNFrames imp ;;
  let gd := addSlider gd 1 (inject_Z (Z.of_nat n2)) (inject_Z (Z.of_nat n3)) in
  let gd := addNumericField gd 10 in
  default_method <- lift (py_getitem methods_as_strings 1) ;;
  let gd := addChoice gd methods_as_strings default_method in
  gd <- showDialog user gd ;;
  if gd_canceled gd then
    emit (EvLog "User canceled dialog!") ;;
    ret None
  else ret (Some gd).

(** Lines 62-67, the frame-range selection: the check of the bounds and
    the duplication of the sub-range.  The result is the new binding of
    [imp]. *)
Definition select (imp : ref) (start_frame stop_frame : Z) : M ref :=
  (if start_frame >? stop_frame then
     emit (EvShowMessage "Start frame > Stop frame!") ;;
     raise (RuntimeException "Start frame > Stop frame!")
   else ret tt) ;;
  if negb (start_frame =? 1) then Duplicator_run imp start_frame stop_frame
  else
    n <- getNFrames imp ;;
    if negb (stop_frame =? Z.of_nat n) then Duplicator_run imp start_frame stop_frame
    else ret imp.

(** The module-level names that are bound when the script ends. *)
Record Globals : Type := mkGlobals {
  g_imp : ref;
  g_cal : ref;
  g_zp : ZProjector;
  g_frame_interval : Q;
  g_time_unit : string;
  g_start_frame : Z;
  g_stop_frame : Z;
  g_total_no_frames_to_project : nat;
  g_no_frames_per_integral : Z;
  g_chosen_method : ZMethod;
  g_zp1 : option ref;
  g_stack : list Frame;
  g_stack_track : list Frame;
  g_title : string;
  g_n_channels : nat
}.

(** Lines 39-88, the module body; [imp] is the active image returned by
    [WindowManager.getCurrentImage()]. *)
Definition deepTime_buddy (user : UserInput) (imp : ref) : M Globals :=
  let cal := imp in
  zp <- new_ZProjector imp ;;
  gd <- setupDialog user imp ;;
  r <- getNextNumber gd ;; let '(frame_interval, gd) := r in
  r <- getNextString gd ;; let '(time_unit, gd) := r in
  set_frameInterval cal frame_interval ;;
  setTimeUnit cal time_unit ;;
  setCalibration imp cal ;;
  r <- getNextNumber gd ;; let '(x, gd) := r in
  let start_frame := py_int x in
  r <- getNextNumber gd ;; let '(x, gd) := r in
  let stop_frame := py_int x in
  imp <- select imp start_frame stop_frame ;;
  total_no_frames_to_project <- getNFrames imp ;;
  r <- getNextNumber gd ;; let '(x, gd) := r in
  let no_frames_per_integral := py_int x in
  r <- getNextChoice gd ;; let '(choice, gd) := r in
  chosen_method <- lift (dict_getitem medthod_dict choice) ;;
  let zp := setMethod zp chosen_method in
  zp <- setStartSlice zp 1 ;;
  zp <- setStopSlice zp 10 ;;
  zp <- doProjection zp ;;
  let zp1 := getProjection zp in
  stack <- getImageStack imp ;;
  stack_track <- createEmptyStack imp ;;
  title <- getTitle imp ;;
  n_channels <- getNChannels imp ;;
  ret (mkGlobals imp cal zp frame_interval time_unit start_frame stop_frame
         total_no_frames_to_project no_frames_per_integral chosen_method zp1
         stack stack_track title n_channels).

(** ** dialog_FRAP.py *)

(** Lines 61-67. *)
Definition channelSelector (imp : ref) (channelno : Z) : M ref :=
  imps <- ChannelSplitter_split imp ;;
  lift (py_getitem imps (channelno - 1)).

(** Lines 17-59.  The result is [None] after a cancel. *)
Definition FRAPsetup (user : UserInput) (imp : ref)
  : M (option (ref * Z * Z * bool)) :=
  let gd := new_dialog "FRAP analysis options" in
  let calibration := imp in
  c <- getCalibration calibration ;;
  (* a Java double is never None: the else branch of lines 21-25 *)
  let default_interval := frameInterval c in
  let gd := addNumericField gd default_interval in
  n <- getNChannels imp ;;
  let channels := map py_str (py_range 1 (n + 1)) in
  default_channel <- lift (py_getitem channels 0) ;;
  let gd := addChoice gd channels default_channel in
  nf <- getNFrames imp ;;
  let gd := addSlider gd 1 (inject_Z (Z.of_nat nf)) 30 in
  let gd := addCheckbox gd true in
  let gd := addNumericField gd 0 in
  let gd := addMessage gd
    "Automatic FRAP checkbox has to be unchecked for maual selection to work" in
  gd <- showDialog user gd ;;
  if gd_canceled gd then
    emit (EvLog "User canceled dialog!") ;;
    ret None
  else
    let gd := Some gd in
    r <- getNextNumber gd ;; let '(frame_interval, gd) := r in
    r <- getNextChoice gd ;; let '(s, gd) := r in
    channel <- lift (py_int_of_string s) ;;
    r <- getNextNumber gd ;; let '(x, gd) := r in
    let max_frame := py_int x in
    r <- getNextNumber gd ;; let '(x, gd) := r in
    let manual_FRAP_frame := py_int x in
    r <- getNextBoolean gd ;; let '(autoFRAPflag, gd) := r in
    set_frameInterval calibration frame_interval ;;
    setCalibration imp calibration ;;
    imp <- channelSelector imp channel ;;
    ret (Some (imp, max_frame, manual_FRAP_frame, autoFRAPflag)).

(** Lines 70-72, the module body: the returned value is unpacked into four
    names, which fails on [None], and printed. *)
Definition dialog_FRAP (user : UserInput) (current_imp : ref)
  : M (ref * Z * Z * bool) :=
  r <- FRAPsetup user current_imp ;;
  match r with
  | None => raise (TypeError "'NoneType' object is not iterable")
  | Some (current_imp, max_frame, maual_FRAP_frame, manualFRAPflag) =>
      emit (EvPrint current_imp max_frame maual_FRAP_frame manualFRAPflag) ;;
      ret (current_imp, max_frame, maual_FRAP_frame, manualFRAPflag)
  end.

(** ** Running a script on an open image *)

(** The store of a fresh run: the active image is the only object. *)
Definition initial (img : ImagePlus) : World := mkWorld [img] [].

Definition run_deepTime_buddy (user : UserInput) (img : ImagePlus)
  : result Globals * World :=
  deepTime_buddy user 0%nat (initial img).

Definition run_dialog_FRAP (user : UserInput) (img : ImagePlus)
  : result (ref * Z * Z * bool) * World :=
  dialog_FRAP user 0%nat (initial img).

(** A user who leaves the TimeCompactor dialog with these six values in its
    fields (typing a field's default is the same as leaving it alone). *)
Definition answers (frame_interval : Q) (time_unit : string)
  (start_frame stop_frame per_integral : Q) (method_pos : nat) : UserInput :=
  mkUser false [frame_interval; start_frame; stop_frame; per_integral]
         [time_unit] [method_pos] [].

(** A user who leaves the FRAP dialog with these five values. *)
Definition FRAP_answers (frame_interval : Q) (channel_pos : nat)
  (max_frame manual_frame : Q) (automatic : bool) : UserInput :=
  mkUser false [frame_interval; max_frame; manual_frame] [] [channel_pos]
         [automatic].

(** ** Observations on a finished run *)

(** The images produced by projections, in the order they were made. *)
Fixpoint projections (t : list event) : list ref :=
  match t with
  | [] => []
  | EvProject _ _ _ _ dst :: rest => dst :: projections rest
  | _ :: rest => projections rest
  end.

(** The images those projections read, in the same order. *)
Fixpoint projected_sources (t : list event) : list ref :=
  match t with
  | [] => []
  | EvProject src _ _ _ _ :: rest => src :: projected_sources rest
  | _ :: rest => projected_sources rest
  end.

(** A core component ran: a duplication, a channel split or a projection. *)
Definition is_core (e : event) : bool :=
  match e with
  | EvDuplicate _ _ _ _ | EvSplit _ _ | EvProject _ _ _ _ _ => true
  | _ => false
  end.

End Scripts.

Notation "x <- m ;; k" := (bind m (fun x => k))
  (at level 100, m at next level, right associativity).
Notation "m ;; k" := (bind m (fun _ => k))
  (at level 100, right associativity).

(** ** Sample inputs *)

(** Planes for running the scripts on concrete stacks: an acquired plane
    with its mean intensity, or the uninterpreted result of a reduction. *)
#[local] Set Warnings "-register-all".
Inductive plane : Type :=
  | Pixel (intensity : Z)
  | Reduced (m : ZMethod) (src : list plane).

(** A single-channel time series with intensities 1, 2, ..., n. *)
Definition series (n : nat) : ImagePlus :=
  mkImagePlus "series" default_calibration 1 1 n 1
              (map (fun i => Pixel (Z.of_nat i)) (seq 1 n)).

(** Three frames of two interleaved channels. *)
Definition two_channels : ImagePlus :=
  mkImagePlus "frap" default_calibration 2 1 3 1
              [Pixel 10; Pixel 20; Pixel 11; Pixel 21; Pixel 12; Pixel 22].

(** The FRAP dialog accepted as it comes up. *)
Definition untouched : UserInput := mkUser false [] [] [] [].

(** ** Comparing two runs *)

(** The bindings of a finished run with the recorded window size blanked
    out. *)
Definition forget_window {Frame : Type} (g : @Globals Frame) : @Globals Frame :=
  mkGlobals (g_imp g) (g_cal g) (g_zp g) (g_frame_interval g) (g_time_unit g)
            (g_start_frame g) (g_stop_frame g) (g_total_no_frames_to_project g)
            0 (g_chosen_method g) (g_zp1 g) (g_stack g) (g_stack_track g)
            (g_title g) (g_n_channels g).

(** Two runs agree up to the window size: the same store and trace, and
    either the same exception or bindings that differ at most in
    [no_frames_per_integral]. *)
Definition agree_up_to_window {Frame : Type}
    (r r' : result (@Globals Frame) * @World Frame) : Prop :=
  snd r = snd r' /\
  match fst r, fst r' with
  | Ok g, Ok g' => forget_window g = forget_window g'
  | Raise e, Raise e' => e = e'
  | _, _ => False
  end.

Section Properties.

Context {Frame : Type}.
Variable reduce : ZMethod -> list Frame -> Frame.

Local Abbreviation ImagePlus := (@ImagePlus Frame).
Local Abbreviation World := (@World Frame).
Local Abbreviation M := (@M Frame).
Local Abbreviation run_deepTime_buddy := (run_deepTime_buddy reduce).
Local Abbreviation deepTime_buddy := (deepTime_buddy reduce).
Local Abbreviation doProjection := (doProjection reduce).

(** * Properties *)

(** ** Python values *)

Lemma py_int_inject_Z (k : Z) : py_int (inject_Z k) = k.
Proof. unfold py_int, inject_Z; simpl. apply Z.quot_1_r. Qed.

Lemma py_int_of_string_py_str (n : nat) :
  py_int_of_string (py_str n) = Ok (Z.of_nat n).
Proof.
  unfold py_int_of_string, py_str.
  rewrite NilEmpty.usu, Unsigned.of_to. reflexivity.
Qed.

Lemma py_range_from_1 (n : nat) : py_range 1 (n + 1) = seq 1 n.
Proof. unfold py_range. f_equal. lia. Qed.

Lemma py_getitem_in_range {A : Type} (l : list A) (i : Z) (x : A) :
  0 <= i -> l !! Z.to_nat i = Some x -> py_getitem l i = Ok x.
Proof.
  intros Hi Hx. unfold py_getitem.
  pose proof (lookup_lt_Some _ _ _ Hx) as Hlt.
  destruct (i <? 0) eqn:Hneg; [lia|].
  replace (0 <=? i) with true by lia.
  replace (i <? Z.of_nat (length l)) with true by lia.
  simpl. rewrite Hx. reflexivity.
Qed.

Lemma py_getitem_above {A : Type} (l : list A) (i : Z) :
  Z.of_nat (length l) <= i -> py_getitem l i = Raise IndexError.
Proof.
  intros Hi. unfold py_getitem.
  destruct (i <? 0) eqn:Hneg; [lia|].
  replace (i <? Z.of_nat (length l)) with false by lia.
  rewrite andb_false_r. reflexivity.
Qed.

Lemma py_getitem_below {A : Type} (l : list A) (i : Z) :
  i < - Z.of_nat (length l) -> py_getitem l i = Raise IndexError.
Proof.
  intros Hi. unfold py_getitem.
  destruct (i <? 0) eqn:Hneg; [|lia].
  replace (0 <=? i + Z.of_nat (length l)) with false by lia.
  reflexivity.
Qed.

Lemma overlay_length {A : Type} (typed defaults : list A) :
  length (overlay typed defaults) = length defaults.
Proof.
  revert typed. induction defaults as [|d ds IH]; intros [|t ts]; simpl; auto.
Qed.

Lemma ceil_div_one_iff (l w : nat) :
  (1 <= l)%nat -> (1 <= w)%nat -> (ceil_div l w = 1%nat <-> (l <= w)%nat).
Proof.
  intros Hl Hw. unfold ceil_div. split.
  - intros H.
    destruct (le_gt_dec l w) as [|Hgt]; [assumption|exfalso].
    assert (2 <= (l + w - 1) / w)%nat; [|lia].
    apply Nat.div_le_lower_bound; lia.
  - intros H. symmetry. apply Nat.div_unique with (r := (l - 1)%nat); lia.
Qed.

(** ** Store operations *)

Lemma alloc_all_run (imgs : list ImagePlus) (w : World) :
  alloc_all imgs w =
    (Ok (seq (length (heap w)) (length imgs)), mkWorld (heap w ++ imgs) (trace w)).
Proof.
  revert w. induction imgs as [|i rest IH]; intros w; simpl.
  - unfold ret. rewrite app_nil_r. destruct w; reflexivity.
  - unfold bind, alloc. rewrite IH. simpl. unfold ret.
    rewrite length_app, <- app_assoc. simpl.
    replace (length (heap w) + 1)%nat with (S (length (heap w))) by lia.
    reflexivity.
Qed.

Lemma split_run (imp : ref) (img : ImagePlus) (w : World) :
  heap w !! imp = Some img ->
  ChannelSplitter_split imp w =
    (Ok (seq (length (heap w)) (nChannels img)),
     mkWorld (heap w ++ map (channel_image img) (seq 0 (nChannels img)))
             (trace w ++ [EvSplit imp (seq (length (heap w)) (nChannels img))])).
Proof.
  intros H. unfold ChannelSplitter_split, bind, deref. rewrite H.
  rewrite alloc_all_run. rewrite length_map, length_seq. reflexivity.
Qed.

Lemma bind_ok {A B : Type} (m : M A) (k : A -> M B) (w w' : World) (a : A) :
  m w = (Ok a, w') -> bind m k w = k a w'.
Proof. intros H. unfold bind. rewrite H. reflexivity. Qed.

Lemma bind_raise {A B : Type} (m : M A) (k : A -> M B) (w w' : World) (e : exn) :
  m w = (Raise e, w') -> bind m k w = (Raise e, w').
Proof. intros H. unfold bind. rewrite H. reflexivity. Qed.

(** One statement of a script: run the head of a [bind] whose outcome is
    known by computation. *)
Ltac tidy :=
  cbv beta iota zeta;
  cbn [gd_title gd_numbers gd_strings gd_choices gd_checkboxes gd_canceled
       zp_imp startSlice stopSlice method projImage setMethod
       heap trace fst snd].

Ltac step := erewrite bind_ok by reflexivity; tidy.

(** The same, with the outcome given by a lemma. *)
Ltac step_with lem :=
  erewrite bind_ok by (eapply lem; first [eassumption | reflexivity]); tidy.


Section Accessors.
Variables (imp : ref) (img : ImagePlus) (w : World).
Hypothesis Himg : heap w !! imp = Some img.

Lemma deref_run : deref imp w = (Ok img, w).
Proof. unfold deref. rewrite Himg. reflexivity. Qed.

Lemma getTitle_run : getTitle imp w = (Ok (title img), w).
Proof. unfold getTitle. now rewrite (bind_ok _ _ _ _ _ deref_run). Qed.

Lemma getCalibration_run : getCalibration imp w = (Ok (calibration img), w).
Proof. unfold getCalibration. now rewrite (bind_ok _ _ _ _ _ deref_run). Qed.

Lemma getNChannels_run : getNChannels imp w = (Ok (nChannels img), w).
Proof. unfold getNChannels. now rewrite (bind_ok _ _ _ _ _ deref_run). Qed.

Lemma getNFrames_run : getNFrames imp w = (Ok (nFrames img), w).
Proof. unfold getNFrames. now rewrite (bind_ok _ _ _ _ _ deref_run). Qed.

Lemma getFrame_run : getFrame imp w = (Ok (frame img), w).
Proof. unfold getFrame. now rewrite (bind_ok _ _ _ _ _ deref_run). Qed.

Lemma getImageStack_run : getImageStack imp w = (Ok (stack img), w).
Proof. unfold getImageStack. now rewrite (bind_ok _ _ _ _ _ deref_run). Qed.

Lemma createEmptyStack_run : createEmptyStack imp w = (Ok [], w).
Proof. unfold createEmptyStack. now rewrite (bind_ok _ _ _ _ _ deref_run). Qed.

Lemma update_run (f : ImagePlus -> ImagePlus) :
  update imp f w = (Ok tt, mkWorld (<[imp := f img]> (heap w)) (trace w)).
Proof. unfold update. rewrite Himg. reflexivity. Qed.

Lemma new_ZProjector_run :
  new_ZProjector imp w =
    (Ok (mkZProjector imp 1 (Z.of_nat (getStackSize img)) MAX_METHOD None), w).
Proof. unfold new_ZProjector. now rewrite (bind_ok _ _ _ _ _ deref_run). Qed.

End Accessors.

Section Projector.
Variables (zp : ZProjector) (img : ImagePlus) (w : World).
Hypothesis Himg : heap w !! zp_imp zp = Some img.

(** A projector that already starts at plane 1 is left as it is by
    [setStartSlice(1)], whether the call is honoured or ignored. *)
Lemma setStartSlice_one : startSlice zp = 1 -> setStartSlice zp 1 w = (Ok zp, w).
Proof.
  intros H1. unfold setStartSlice.
  rewrite (bind_ok _ _ _ _ _ (deref_run _ _ _ Himg)).
  destruct ((1 <? 1) || (Z.of_nat (getStackSize img) <? 1)); [reflexivity|].
  unfold ret. destruct zp; simpl in *; subst; reflexivity.
Qed.

Lemma setStopSlice_ten :
  setStopSlice zp 10 w =
    (Ok (mkZProjector (zp_imp zp) (startSlice zp)
           (if Z.of_nat (getStackSize img) <? 10 then stopSlice zp else 10)
           (method zp) (projImage zp)), w).
Proof.
  unfold setStopSlice.
  rewrite (bind_ok _ _ _ _ _ (deref_run _ _ _ Himg)). simpl.
  destruct (Z.of_nat (getStackSize img) <? 10); [|reflexivity].
  unfold ret. destruct zp; reflexivity.
Qed.

Lemma doProjection_run :
  doProjection zp w =
    (Ok (mkZProjector (zp_imp zp) (startSlice zp) (stopSlice zp) (method zp)
           (Some (length (heap w)))),
     mkWorld
       (heap w ++
        [mkImagePlus (method_prefix (method zp) ++ title img) default_calibration
           1 1 1 1
           [reduce (method zp)
              (slices (stack img) (startSlice zp) (stopSlice zp))]])
       (trace w ++
        [EvProject (zp_imp zp) (startSlice zp) (stopSlice zp) (method zp)
           (length (heap w))])).
Proof.
  unfold doProjection.
  rewrite (bind_ok _ _ _ _ _ (deref_run _ _ _ Himg)). reflexivity.
Qed.

End Projector.

(** Planes 1 to 10 of a stack, or all of them when there are fewer. *)
Lemma slices_first_ten (st : list Frame) :
  slices st 1 (if Z.of_nat (length st) <? 10 then Z.of_nat (length st) else 10)
  = firstn 10 st.
Proof.
  unfold slices. change (Z.to_nat (1 - 1)) with 0%nat. rewrite skipn_O.
  destruct (Z.ltb_spec (Z.of_nat (length st)) 10) as [Hlt|Hge].
  - replace (Z.to_nat (Z.of_nat (length st) - 1 + 1)) with (length st) by lia.
    rewrite firstn_all. symmetry. apply firstn_all2. lia.
  - reflexivity.
Qed.

(** Lines 54-56 of [deepTime_buddy.py]: the three statements leave the
    image with exactly the interval and unit they are given. *)
Lemma calibrate_run {A : Type} (imp : ref) (img : ImagePlus) (w : World)
    (fi : Q) (u : string) (k : M A) :
  heap w !! imp = Some img ->
  (set_frameInterval imp fi ;; setTimeUnit imp u ;; setCalibration imp imp ;; k) w =
  k (mkWorld (<[imp := with_calibration img (mkCalibration fi u)]> (heap w)) (trace w)).
Proof.
  intros Himg. pose proof (lookup_lt_Some _ _ _ Himg) as Hlt.
  unfold set_frameInterval, setTimeUnit, setCalibration.
  rewrite (bind_ok _ _ _ _ _ (update_run _ _ _ Himg _)).
  erewrite bind_ok; [|apply update_run; simpl; apply list_lookup_insert_eq, Hlt].
  erewrite bind_ok.
  2:{ erewrite bind_ok.
      2:{ apply getCalibration_run. simpl.
          apply list_lookup_insert_eq. rewrite length_insert. exact Hlt. }
      apply update_run. simpl.
      apply list_lookup_insert_eq. rewrite length_insert. exact Hlt. }
  simpl. rewrite !list_insert_insert_eq. reflexivity.
Qed.

(** ** Frame-range selection *)

(** The full range is served without a duplicate. *)
Lemma select_full_range (imp : ref) (img : ImagePlus) (w : World) :
  heap w !! imp = Some img ->
  (1 <= nFrames img)%nat ->
  select imp 1 (Z.of_nat (nFrames img)) w = (Ok imp, w).
Proof.
  intros Himg Hlen. unfold select, bind.
  replace (1 >? Z.of_nat (nFrames img)) with false by lia.
  simpl. unfold getNFrames, bind, deref. rewrite Himg. simpl.
  rewrite Z.eqb_refl. reflexivity.
Qed.

(** Any other pair of bounds inside the stack is served by a duplicate. *)
Lemma select_subrange (imp : ref) (img : ImagePlus) (a b : Z) (w : World) :
  heap w !! imp = Some img ->
  1 <= a <= b -> b <= Z.of_nat (getStackSize img) ->
  a <> 1 \/ b <> Z.of_nat (nFrames img) ->
  select imp a b w = Duplicator_run imp a b w.
Proof.
  intros Himg Hab Hb Hne. unfold select, bind.
  replace (a >? b) with false by lia. simpl.
  destruct (a =? 1) eqn:Ha; simpl; [|reflexivity].
  unfold getNFrames, bind, deref. rewrite Himg. simpl.
  destruct (b =? Z.of_nat (nFrames img)) eqn:Hb'; simpl; [lia|reflexivity].
Qed.

Lemma Duplicator_run_ok (imp : ref) (img : ImagePlus) (a b : Z) (w : World) :
  heap w !! imp = Some img ->
  1 <= a <= b -> b <= Z.of_nat (getStackSize img) ->
  exists dup,
    Duplicator_run imp a b w =
      (Ok (length (heap w)),
       mkWorld (heap w ++ [dup])
               (trace w ++ [EvDuplicate imp a b (length (heap w))])) /\
    calibration dup = calibration img /\
    stack dup = slices (stack img) a b /\
    (1 <= nFrames dup)%nat.
Proof.
  intros Himg Hab Hb. unfold Duplicator_run, bind, deref. rewrite Himg.
  replace (1 <=? a) with true by lia.
  replace (a <=? b) with true by lia.
  replace (b <=? Z.of_nat (getStackSize img)) with true by lia.
  simpl. eexists. split; [reflexivity|]. simpl. repeat split.
  destruct (Nat.eqb _ _); [|lia].
  unfold slices. rewrite length_firstn, length_skipn.
  unfold getStackSize in Hb. lia.
Qed.

(** ** Channel extraction *)

Lemma channelSelector_run (imp : ref) (img : ImagePlus) (c : Z) (w : World) :
  heap w !! imp = Some img ->
  channelSelector imp c w =
    (py_getitem (seq (length (heap w)) (nChannels img)) (c - 1),
     mkWorld (heap w ++ map (channel_image img) (seq 0 (nChannels img)))
             (trace w ++ [EvSplit imp (seq (length (heap w)) (nChannels img))])).
Proof.
  intros Himg. unfold channelSelector, bind.
  rewrite (split_run _ _ _ Himg). reflexivity.
Qed.

Lemma channelSelector_in_range (imp : ref) (img : ImagePlus) (c : Z) (w : World) :
  heap w !! imp = Some img ->
  1 <= c <= Z.of_nat (nChannels img) ->
  let r := (length (heap w) + Z.to_nat (c - 1))%nat in
  let w' := snd (channelSelector imp c w) in
  channelSelector imp c w = (Ok r, w') /\
  heap w' !! r = Some (channel_image img (Z.to_nat (c - 1))).
Proof.
  intros Himg Hc r w'. subst r w'.
  rewrite (channelSelector_run _ _ _ _ Himg). simpl. split.
  - f_equal. apply py_getitem_in_range; [lia|].
    apply lookup_seq. lia.
  - rewrite lookup_app_r by lia.
    replace (length (heap w) + Z.to_nat (c - 1) - length (heap w))%nat
      with (Z.to_nat (c - 1)) by lia.
    rewrite list_lookup_fmap, lookup_seq_lt by lia. reflexivity.
Qed.

(** ** The TimeCompactor run *)

(** Every entry of the method list is a key of [medthod_dict], so line 74
    never raises [KeyError]. *)
Lemma method_choice (p : nat) :
  exists m, dict_getitem medthod_dict
    (match methods_as_strings !! p with Some s => s | None => "Max Intensity" end)
    = Ok m.
Proof.
  do 6 (destruct p as [|p]; [eexists; vm_compute; reflexivity|]).
  eexists; vm_compute; reflexivity.
Qed.

Lemma setupDialog_answers (imp : ref) (img : ImagePlus) (w : World)
    (fi : Q) (u : string) (a b n : Q) (p : nat) :
  heap w !! imp = Some img ->
  setupDialog (answers fi u a b n p) imp w =
    (Ok (Some (mkDialog "TimeCompactor options" [fi; a; b; n] [u]
                 [(methods_as_strings,
                   match methods_as_strings !! p with
                   | Some s => s
                   | None => "Max Intensity"
                   end)]
                 [] false)),
     mkWorld (heap w) (trace w ++ [EvShowDialog "TimeCompactor options"])).
Proof.
  intros H. unfold setupDialog.
  step_with getTitle_run. step_with getCalibration_run.
  step_with getNFrames_run. step_with getFrame_run.
  step_with getNFrames_run. step_with getNFrames_run.
  step. step. reflexivity.
Qed.

Lemma setupDialog_canceled (imp : ref) (img : ImagePlus) (w : World)
    (tn : list Q) (ts : list string) (pk : list nat) (tk : list bool) :
  heap w !! imp = Some img ->
  setupDialog (mkUser true tn ts pk tk) imp w =
    (Ok None,
     mkWorld (heap w)
       ((trace w ++ [EvShowDialog "TimeCompactor options"]) ++
        [EvLog "User canceled dialog!"])).
Proof.
  intros H. unfold setupDialog.
  step_with getTitle_run. step_with getCalibration_run.
  step_with getNFrames_run. step_with getFrame_run.
  step_with getNFrames_run. step_with getNFrames_run.
  step. step. reflexivity.
Qed.

(** Whatever the user does to the dialog short of cancelling it, the fields
    end up holding six values: [answers] covers every such user. *)
Lemma every_user_is_answers (user : UserInput) (img : ImagePlus) :
  cancel user = false ->
  exists fi u a b n p,
    run_deepTime_buddy user img = run_deepTime_buddy (answers fi u a b n p) img.
Proof.
  destruct user as [c tn ts pk tk]. simpl. intros ->.
  assert (exists fi u a b n p, forall w,
    heap w !! 0%nat = Some img ->
    setupDialog (mkUser false tn ts pk tk) 0%nat w =
    setupDialog (answers fi u a b n p) 0%nat w) as (fi & u & a & b & n & p & H).
  { set (d0 := if Qle_bool (frameInterval (calibration img)) 0 then 0%Q
                else frameInterval (calibration img)).
    set (nums := overlay tn [d0; inject_Z (Z.of_nat (frame img));
                             inject_Z (Z.of_nat (nFrames img)); 10%Q]).
    exists (nth 0 nums 0%Q), (nth 0 (overlay ts [timeUnit (calibration img)]) ""),
      (nth 1 nums 0%Q), (nth 2 nums 0%Q), (nth 3 nums 0%Q),
      (match pk with [] => 1%nat | p0 :: _ => p0 end).
    intros w H. unfold setupDialog.
    step_with getTitle_run. step_with getCalibration_run.
    step_with getNFrames_run. step_with getFrame_run.
    step_with getNFrames_run. step_with getNFrames_run.
    step. symmetry.
    step_with getTitle_run. step_with getCalibration_run.
    step_with getNFrames_run. step_with getFrame_run.
    step_with getNFrames_run. step_with getNFrames_run.
    step. symmetry.
    unfold showDialog. subst nums d0.
    destruct tn as [|x1 [|x2 [|x3 [|x4 tn]]]], ts as [|s1 ts], pk as [|p1 pk], tk;
      reflexivity. }
  exists fi, u, a, b, n, p.
  unfold run_deepTime_buddy, deepTime_buddy, initial.
  step. symmetry. step. symmetry.
  unfold bind at 1. rewrite H by reflexivity. reflexivity.
Qed.

(** The run on valid bounds, from the first statement to the last. *)
Lemma run_valid (img : ImagePlus) (fi : Q) (u : string) (a b n : Q) (p : nat) :
  1 <= py_int a <= py_int b ->
  py_int b <= Z.of_nat (getStackSize img) ->
  exists g w out proj pimg,
    run_deepTime_buddy (answers fi u a b n p) img = (Ok g, w) /\
    g_no_frames_per_integral g = py_int n /\
    g_stack_track g = [] /\
    heap w !! g_imp g = Some out /\
    calibration out = mkCalibration fi u /\
    g_total_no_frames_to_project g = nFrames out /\
    (1 <= nFrames out)%nat /\
    projections (trace w) = [proj] /\
    projected_sources (trace w) = [0%nat] /\
    g_zp1 g = Some proj /\
    zp_imp (g_zp g) = 0%nat /\
    heap w !! proj = Some pimg /\
    stack pimg = [reduce (g_chosen_method g) (firstn 10 (stack img))] /\
    (g_imp g = 0%nat \/
     g_imp g <> 0%nat /\
     In (EvDuplicate 0%nat (py_int a) (py_int b) (g_imp g)) (trace w)).
Proof.
  intros Hab Hb.
  destruct (method_choice p) as [m Hm].
  unfold run_deepTime_buddy, deepTime_buddy, initial.
  step. step_with setupDialog_answers.
  step. step.
  erewrite calibrate_run by reflexivity.
  step. step.
  set (img' := with_calibration img (mkCalibration fi u)).
  change (<[0%nat:=img']> [img]) with [img'].
  destruct (decide (py_int a = 1 /\ py_int b = Z.of_nat (nFrames img')))
    as [[Ha Hfull]|Hsub].
  - rewrite Ha, Hfull.
    erewrite bind_ok
      by (eapply (select_full_range 0%nat img'); [reflexivity|lia]).
    tidy. step. step. step. rewrite Hm. step.
    step_with setStartSlice_one. step_with setStopSlice_ten.
    step_with doProjection_run. step. step. step. step.
    unfold ret. tidy.
    eexists _, _, _, _, _. split; [reflexivity|].
    cbn. subst img'. unfold getStackSize. cbn.
    rewrite slices_first_ten.
    repeat split; try reflexivity; lia.
  - destruct (Duplicator_run_ok 0%nat img' (py_int a) (py_int b)
                (mkWorld [img'] [EvShowDialog "TimeCompactor options"]))
      as (dup & Hrun & Hcal & Hst & Hnf); [reflexivity|lia|exact Hb|].
    erewrite bind_ok.
    2:{ rewrite (select_subrange 0%nat img'); [exact Hrun|reflexivity|lia|exact Hb|].
        destruct (decide (py_int a = 1)); [right|left]; tauto. }
    tidy. step. step. step. rewrite Hm. step.
    step_with setStartSlice_one. step_with setStopSlice_ten.
    step_with doProjection_run. step. step. step. step.
    unfold ret. tidy.
    eexists _, _, _, _, _. split; [reflexivity|].
    cbn. subst img'. unfold getStackSize. cbn.
    rewrite slices_first_ten.
    repeat split; try reflexivity; try lia; try assumption.
    right. split; [lia|]. right; left; reflexivity.
Qed.

(** ** The FRAP set-up *)

(** Lines 52-53 of [dialog_FRAP.py]. *)
Lemma calibrate_interval_run {A : Type} (imp : ref) (img : ImagePlus) (w : World)
    (fi : Q) (k : M A) :
  heap w !! imp = Some img ->
  (set_frameInterval imp fi ;; setCalibration imp imp ;; k) w =
  k (mkWorld (<[imp := with_calibration img
                         (mkCalibration fi (timeUnit (calibration img)))]> (heap w))
             (trace w)).
Proof.
  intros Himg. pose proof (lookup_lt_Some _ _ _ Himg) as Hlt.
  unfold set_frameInterval, setCalibration.
  rewrite (bind_ok _ _ _ _ _ (update_run _ _ _ Himg _)).
  erewrite bind_ok.
  2:{ erewrite bind_ok.
      2:{ apply getCalibration_run. simpl. apply list_lookup_insert_eq, Hlt. }
      apply update_run. simpl. apply list_lookup_insert_eq, Hlt. }
  simpl. rewrite !list_insert_insert_eq. reflexivity.
Qed.

(** The item of the channel list under the user's pick: the decimal
    numeral of a channel number between 1 and nChannels. *)
Lemma channel_choice (n cpos : nat) :
  (1 <= n)%nat ->
  exists c, (1 <= c <= n)%nat /\
    match map py_str (seq 1 n) !! cpos with
    | Some s => s
    | None => py_str 1
    end = py_str c.
Proof.
  intros Hn. destruct (le_lt_dec n cpos) as [Hge|Hlt].
  - exists 1%nat. split; [lia|].
    rewrite list_lookup_fmap, lookup_seq_ge by lia. reflexivity.
  - exists (1 + cpos)%nat. split; [lia|].
    rewrite list_lookup_fmap, lookup_seq_lt by lia. reflexivity.
Qed.

Lemma FRAPsetup_run (img : ImagePlus) (fi : Q) (cpos : nat) (mf k : Q) (auto : bool) :
  (1 <= nChannels img)%nat ->
  exists c : nat,
    (1 <= c <= nChannels img)%nat /\
    match map py_str (py_range 1 (nChannels img + 1)) !! cpos with
    | Some s => s
    | None => py_str 1
    end = py_str c /\
    FRAPsetup (FRAP_answers fi cpos mf k auto) 0%nat (initial img) =
      (Ok (Some (c, py_int mf, py_int k, auto)),
       mkWorld
         (with_calibration img (mkCalibration fi (timeUnit (calibration img))) ::
          map (channel_image
                 (with_calibration img (mkCalibration fi (timeUnit (calibration img)))))
              (seq 0 (nChannels img)))
         [EvShowDialog "FRAP analysis options";
          EvSplit 0%nat (seq 1 (nChannels img))]).
Proof.
  intros Hn.
  destruct (channel_choice (nChannels img) cpos Hn) as (c & Hc & Hs).
  exists c. split; [exact Hc|].
  split; [rewrite py_range_from_1; exact Hs|].
  unfold FRAPsetup, initial.
  step. step. rewrite py_range_from_1.
  erewrite bind_ok.
  2:{ unfold lift. f_equal. apply py_getitem_in_range; [lia|].
      destruct (nChannels img); [lia|reflexivity]. }
  step. step.
  cbn [gd_canceled fill_in cancel FRAP_answers].
  step. step.
  rewrite Hs, py_int_of_string_py_str. step.
  step. step. step.
  erewrite calibrate_interval_run by reflexivity.
  set (img' := with_calibration img (mkCalibration fi (timeUnit (calibration img)))).
  change (<[0%nat:=img']> [img]) with [img'].
  erewrite bind_ok.
  2:{ apply (channelSelector_in_range 0%nat img'); [reflexivity|].
      change (nChannels img') with (nChannels img). lia. }
  rewrite (channelSelector_run 0%nat img') by reflexivity.
  unfold ret. cbn [snd heap trace length app].
  change (nChannels img') with (nChannels img).
  change (<[0%nat:=img']> [img]) with [img'].
  replace (length [img'] + Z.to_nat (Z.of_nat c - 1))%nat with c by (simpl; lia).
  reflexivity.
Qed.

Lemma FRAPsetup_canceled (img : ImagePlus) (tn : list Q) (ts : list string)
    (pk : list nat) (tk : list bool) :
  (1 <= nChannels img)%nat ->
  FRAPsetup (mkUser true tn ts pk tk) 0%nat (initial img) =
    (Ok None,
     mkWorld [img] [EvShowDialog "FRAP analysis options";
                    EvLog "User canceled dialog!"]).
Proof.
  intros Hn. unfold FRAPsetup, initial.
  step. step. rewrite py_range_from_1.
  erewrite bind_ok.
  2:{ unfold lift. f_equal. apply py_getitem_in_range; [lia|].
      destruct (nChannels img); [lia|reflexivity]. }
  step. step. reflexivity.
Qed.

(** Whatever the user does to the FRAP dialog short of cancelling it is
    covered by [FRAP_answers]. *)
Lemma every_FRAP_user_is_answers (user : UserInput) (img : ImagePlus) :
  cancel user = false ->
  exists fi cpos mf k auto,
    FRAPsetup user 0%nat (initial img) =
    FRAPsetup (FRAP_answers fi cpos mf k auto) 0%nat (initial img).
Proof.
  destruct user as [c tn ts pk tk]. simpl. intros ->.
  set (nums := overlay tn [frameInterval (calibration img); 30%Q; 0%Q]).
  exists (nth 0 nums 0%Q), (match pk with [] => 0%nat | p0 :: _ => p0 end),
    (nth 1 nums 0%Q), (nth 2 nums 0%Q),
    (match tk with [] => true | t0 :: _ => t0 end).
  unfold FRAPsetup, initial.
  step. symmetry. step. symmetry. step. symmetry. step. symmetry.
  rewrite py_range_from_1.
  destruct (nChannels img) as [|n]; [reflexivity|].
  erewrite bind_ok by reflexivity. symmetry.
  erewrite bind_ok by reflexivity. symmetry.
  tidy. step. symmetry. step. symmetry.
  unfold showDialog. subst nums.
  destruct tn as [|x1 [|x2 [|x3 tn]]], ts, pk as [|p1 pk], tk as [|t1 tk];
    reflexivity.
Qed.

(** With start > stop the whole run ends at the range check: the dialog
    was shown, the message was shown, nothing was duplicated or projected;
    the calibration written by lines 54-56 stays. *)
Lemma run_start_after_stop (img : ImagePlus) (fi : Q) (u : string)
    (a b n : Q) (p : nat) :
  py_int a > py_int b ->
  run_deepTime_buddy (answers fi u a b n p) img =
    (Raise (RuntimeException "Start frame > Stop frame!"),
     mkWorld [with_calibration img (mkCalibration fi u)]
             [EvShowDialog "TimeCompactor options";
              EvShowMessage "Start frame > Stop frame!"]).
Proof.
  intros Hgt.
  unfold run_deepTime_buddy, deepTime_buddy, initial.
  step. step_with setupDialog_answers.
  step. step.
  erewrite calibrate_run by reflexivity.
  step. step.
  erewrite bind_raise; [reflexivity|].
  unfold select. erewrite bind_raise; [reflexivity|].
  replace (py_int a >? py_int b) with true by lia.
  reflexivity.
Qed.

(** * The claims *)

(** C2: for every pair of bounds with start > stop the selection fails: the
    message is shown to the user, the exception is raised, and the store
    is left as it was (nothing is duplicated, no bound is adjusted). *)
Theorem select_start_after_stop (imp : ref) (start_frame stop_frame : Z) (w : World) :
  start_frame > stop_frame ->
  select imp start_frame stop_frame w =
    (Raise (RuntimeException "Start frame > Stop frame!"),
     mkWorld (heap w) (trace w ++ [EvShowMessage "Start frame > Stop frame!"])).
Proof.
  intros Hgt. unfold select, bind.
  replace (start_frame >? stop_frame) with true by lia.
  reflexivity.
Qed.

(** C3: selecting frames 1 to [getNFrames] returns the very reference it was
    given and leaves the store and the trace untouched: the same image
    object with the same planes in the same order, and no copy is made. *)
Theorem select_full_range_identity (imp : ref) (img : ImagePlus) (w : World) :
  heap w !! imp = Some img ->
  (1 <= nFrames img)%nat ->
  select imp 1 (Z.of_nat (nFrames img)) w = (Ok imp, w) /\
  heap (snd (select imp 1 (Z.of_nat (nFrames img)) w)) !! imp = Some img /\
  length (heap (snd (select imp 1 (Z.of_nat (nFrames img)) w))) = length (heap w).
Proof.
  intros Himg Hlen. rewrite (select_full_range imp img w Himg Hlen).
  simpl. auto.
Qed.

(** C6 (as amended): a channel number in [1, nChannels] yields the image
    made of that channel's planes; a channel number above nChannels, or at
    most -nChannels, ends in an IndexError. *)
Theorem channelSelector_spec (imp : ref) (img : ImagePlus) (c : Z) (w : World) :
  heap w !! imp = Some img ->
  (1 <= c <= Z.of_nat (nChannels img) ->
     exists r w', channelSelector imp c w = (Ok r, w') /\
       heap w' !! r = Some (channel_image img (Z.to_nat (c - 1))) /\
       stack (channel_image img (Z.to_nat (c - 1))) =
         channel_planes (nChannels img) (Z.to_nat (c - 1)) (stack img)) /\
  (Z.of_nat (nChannels img) < c \/ c <= - Z.of_nat (nChannels img) ->
     fst (channelSelector imp c w) = Raise IndexError).
Proof.
  intros Himg. split.
  - intros Hc.
    destruct (channelSelector_in_range _ _ _ _ Himg Hc) as [Hrun Hheap].
    eexists _, _. split; [exact Hrun|]. split; [exact Hheap|reflexivity].
  - intros Hc. rewrite (channelSelector_run _ _ _ _ Himg). simpl.
    destruct Hc as [Hc|Hc].
    + apply py_getitem_above. rewrite length_seq. lia.
    + apply py_getitem_below. rewrite length_seq. lia.
Qed.

(** What lines 71-79 do on every stack and for every window size: the
    script makes exactly one projection and the stack created to collect
    output frames stays empty, so the number of output frames is
    ceil(L / windowSize) only when L <= windowSize. *)
Theorem compact_single_projection (img : ImagePlus) (fi : Q) (u : string)
    (a b n : Q) (p : nat) :
  1 <= py_int a <= py_int b ->
  py_int b <= Z.of_nat (getStackSize img) ->
  1 <= py_int n ->
  exists g w,
    run_deepTime_buddy (answers fi u a b n p) img = (Ok g, w) /\
    g_no_frames_per_integral g = py_int n /\
    (1 <= g_total_no_frames_to_project g)%nat /\
    length (projections (trace w)) = 1%nat /\
    g_stack_track g = [] /\
    (length (projections (trace w)) =
       ceil_div (g_total_no_frames_to_project g)
                (Z.to_nat (g_no_frames_per_integral g))
     <-> (g_total_no_frames_to_project g
          <= Z.to_nat (g_no_frames_per_integral g))%nat).
Proof.
  intros Hab Hb Hn.
  destruct (run_valid img fi u a b n p Hab Hb)
    as (g & w & out & proj & pimg & Hrun & Hw & Htrack & _ & _ & HL & Hpos &
        Hproj & _).
  exists g, w. rewrite Hproj, Hw, HL. simpl.
  repeat split; try assumption.
  - intros H. apply ceil_div_one_iff; [assumption|lia|]. symmetry. exact H.
  - intros H. symmetry. apply ceil_div_one_iff; [assumption|lia|exact H].
Qed.

(** C8 (as amended): the frame interval and time unit read from the
    dialog are stored in the calibration of the image the script works on
    (the active image, and the sub-range duplicate that copies it),
    whatever the window size and whatever interval the image had before;
    no calibration is assigned to the projected image, which keeps the one
    the projector gave it. *)
Theorem calibration_set_on_working_image_only (img : ImagePlus) (fi : Q)
    (u : string) (a b n : Q) (p : nat) :
  1 <= py_int a <= py_int b ->
  py_int b <= Z.of_nat (getStackSize img) ->
  exists g w out proj pimg,
    run_deepTime_buddy (answers fi u a b n p) img = (Ok g, w) /\
    heap w !! g_imp g = Some out /\
    calibration out = mkCalibration fi u /\
    calibration <$> heap w !! 0%nat = Some (mkCalibration fi u) /\
    g_zp1 g = Some proj /\
    heap w !! proj = Some pimg /\
    calibration pimg = default_calibration.
Proof.
  intros Hab Hb.
  destruct (method_choice p) as [m Hm].
  unfold run_deepTime_buddy, deepTime_buddy, initial.
  step. step_with setupDialog_answers.
  step. step.
  erewrite calibrate_run by reflexivity.
  step. step.
  set (img' := with_calibration img (mkCalibration fi u)).
  change (<[0%nat:=img']> [img]) with [img'].
  destruct (decide (py_int a = 1 /\ py_int b = Z.of_nat (nFrames img')))
    as [[Ha Hfull]|Hsub].
  - rewrite Ha, Hfull.
    erewrite bind_ok
      by (eapply (select_full_range 0%nat img'); [reflexivity|lia]).
    tidy. step. step. step. rewrite Hm. step.
    step_with setStartSlice_one. step_with setStopSlice_ten.
    step_with doProjection_run. step. step. step. step.
    unfold ret. tidy.
    eexists _, _, _, _, _. split; [reflexivity|].
    cbn. repeat split; reflexivity.
  - destruct (Duplicator_run_ok 0%nat img' (py_int a) (py_int b)
                (mkWorld [img'] [EvShowDialog "TimeCompactor options"]))
      as (dup & Hrun & Hcal & Hst & Hnf); [reflexivity|lia|exact Hb|].
    erewrite bind_ok.
    2:{ rewrite (select_subrange 0%nat img'); [exact Hrun|reflexivity|lia|exact Hb|].
        destruct (decide (py_int a = 1)); [right|left]; tauto. }
    tidy. step. step. step. rewrite Hm. step.
    step_with setStartSlice_one. step_with setStopSlice_ten.
    step_with doProjection_run. step. step. step. step.
    unfold ret. tidy.
    eexists _, _, _, _, _. split; [reflexivity|].
    cbn. repeat split; try reflexivity.
    rewrite Hcal. reflexivity.
Qed.

(** C10: for every pair of valid bounds the projector still holds the
    active image it was built from, the only projection reads that image,
    its result is the reduction of planes of the original stack, and a
    duplicate made for the sub-range is a different object. *)
Theorem projection_reads_original_stack (img : ImagePlus) (fi : Q) (u : string)
    (a b n : Q) (p : nat) :
  1 <= py_int a <= py_int b ->
  py_int b <= Z.of_nat (getStackSize img) ->
  exists g w proj pimg,
    run_deepTime_buddy (answers fi u a b n p) img = (Ok g, w) /\
    zp_imp (g_zp g) = 0%nat /\
    projected_sources (trace w) = [0%nat] /\
    g_zp1 g = Some proj /\
    heap w !! proj = Some pimg /\
    stack pimg = [reduce (g_chosen_method g) (firstn 10 (stack img))] /\
    (g_imp g = 0%nat \/
     g_imp g <> zp_imp (g_zp g) /\
     In (EvDuplicate 0%nat (py_int a) (py_int b) (g_imp g)) (trace w)).
Proof.
  intros Hab Hb.
  destruct (run_valid img fi u a b n p Hab Hb)
    as (g & w & out & proj & pimg & Hrun & _ & _ & _ & _ & _ & _ & _ &
        Hsrc & Hzp1 & Hzp & Hp & Hst & Hdup).
  exists g, w, proj, pimg. rewrite Hzp. repeat split; assumption.
Qed.

(** C7: after a cancel both scripts end in an uncaught exception
    ([None.getNextNumber] in the TimeCompactor, unpacking [None] in the
    FRAP set-up); the trace up to that point holds the dialog and the log
    line only. *)
Theorem cancel_ends_in_exception (img : ImagePlus) (tn : list Q)
    (ts : list string) (pk : list nat) (tk : list bool)
    (t : string) (cal : Calibration) (c ns nf f : nat) (st : list Frame) :
  run_deepTime_buddy (mkUser true tn ts pk tk) img =
    (Raise (AttributeError "NoneType" "getNextNumber"),
     mkWorld [img] [EvShowDialog "TimeCompactor options";
                    EvLog "User canceled dialog!"]) /\
  run_dialog_FRAP (mkUser true tn ts pk tk) (mkImagePlus t cal (S c) ns nf f st) =
    (Raise (TypeError "'NoneType' object is not iterable"),
     mkWorld [mkImagePlus t cal (S c) ns nf f st]
             [EvShowDialog "FRAP analysis options";
              EvLog "User canceled dialog!"]).
Proof.
  split.
  - unfold run_deepTime_buddy, deepTime_buddy, initial.
    step. step_with setupDialog_canceled.
    erewrite bind_raise by reflexivity. reflexivity.
  - unfold run_dialog_FRAP, dialog_FRAP.
    erewrite bind_ok by (apply FRAPsetup_canceled; simpl; lia).
    reflexivity.
Qed.

(** C4 (as amended): with the automatic box unticked the set-up returns
    the number typed in the manual field, whatever it is, together with
    the flag false; the result does not depend on the planes of the stack
    and no index is ever rejected. *)
Theorem manual_index_passed_through (img : ImagePlus) (fi : Q) (cpos : nat)
    (mf : Q) (k : Z) :
  (1 <= nChannels img)%nat ->
  exists r w,
    FRAPsetup (FRAP_answers fi cpos mf (inject_Z k) false) 0%nat (initial img) =
      (Ok (Some (r, py_int mf, k, false)), w).
Proof.
  intros Hn.
  destruct (FRAPsetup_run img fi cpos mf (inject_Z k) false Hn) as (c & _ & _ & H).
  rewrite py_int_inject_Z in H. eexists _, _. exact H.
Qed.

(** C5 (as amended): with the automatic box ticked the set-up scans
    nothing: for every stack it returns the content of the manual field
    (0 unless the user changed it) together with the flag true, and never
    fails. *)
Theorem automatic_mode_returns_manual_field (img : ImagePlus) (fi : Q)
    (cpos : nat) (mf : Q) (k : Z) :
  (1 <= nChannels img)%nat ->
  (exists r w,
     FRAPsetup (FRAP_answers fi cpos mf (inject_Z k) true) 0%nat (initial img) =
       (Ok (Some (r, py_int mf, k, true)), w)) /\
  (exists r w,
     FRAPsetup (FRAP_answers fi cpos mf 0 true) 0%nat (initial img) =
       (Ok (Some (r, py_int mf, 0, true)), w)).
Proof.
  intros Hn. split.
  - destruct (FRAPsetup_run img fi cpos mf (inject_Z k) true Hn) as (c & _ & _ & H).
    rewrite py_int_inject_Z in H. eexists _, _. exact H.
  - destruct (FRAPsetup_run img fi cpos mf 0 true Hn) as (c & _ & _ & H).
    eexists _, _. exact H.
Qed.

(** C9: whichever entry of the channel list the user picks, the channel
    number read back from it lies between 1 and nChannels, the split
    returns nChannels images, and [imps[channelno-1]] finds its element
    without wrapping around and without an IndexError. *)
Theorem dialog_channel_in_bounds (img : ImagePlus) (fi : Q) (cpos : nat)
    (mf k : Q) (auto : bool) :
  (1 <= nChannels img)%nat ->
  exists (c : nat) (imps : list ref) (r : ref) (w : World),
    py_int_of_string
      match map py_str (py_range 1 (nChannels img + 1)) !! cpos with
      | Some s => s
      | None => py_str 1
      end = Ok (Z.of_nat c) /\
    (1 <= c <= nChannels img)%nat /\
    FRAPsetup (FRAP_answers fi cpos mf k auto) 0%nat (initial img) =
      (Ok (Some (r, py_int mf, py_int k, auto)), w) /\
    In (EvSplit 0%nat imps) (trace w) /\
    length imps = nChannels img /\
    0 <= Z.of_nat c - 1 < Z.of_nat (length imps) /\
    py_getitem imps (Z.of_nat c - 1) = Ok r.
Proof.
  intros Hn.
  destruct (FRAPsetup_run img fi cpos mf k auto Hn) as (c & Hc & Hs & H).
  eexists c, (seq 1 (nChannels img)), c, _.
  split; [rewrite Hs; apply py_int_of_string_py_str|].
  split; [exact Hc|]. split; [exact H|].
  simpl. rewrite length_seq. repeat split; try lia.
  - right; left; reflexivity.
  - apply py_getitem_in_range; [lia|].
    rewrite lookup_seq_lt by lia. f_equal. lia.
Qed.

(** * Further properties of the scripts *)

(** ** The method table *)

(** Looking a string up in [medthod_dict] succeeds exactly on the six method
    names, with the constant at the same position of [methods_as_const];
    on any other string it raises [KeyError] with that string. *)
Theorem medthod_dict_lookup (s : string) :
  (forall m,
     dict_getitem medthod_dict s = Ok m <->
     exists i, methods_as_strings !! i = Some s /\ methods_as_const !! i = Some m) /\
  (dict_getitem medthod_dict s = Raise (KeyError s) <->
   ~ In s methods_as_strings).
Proof.
  assert (Hnodup : NoDup (zip methods_as_strings methods_as_const).*1).
  { rewrite fst_zip by reflexivity. apply NoDup_ListNoDup.
    repeat constructor; simpl; intuition discriminate. }
  assert (Hin : forall m, medthod_dict !! s = Some m <->
            exists i, methods_as_strings !! i = Some s /\
                      methods_as_const !! i = Some m).
  { intros m. unfold medthod_dict.
    rewrite <- (elem_of_list_to_map _ _ _ Hnodup), list_elem_of_lookup.
    split; intros [i Hi]; exists i.
    - apply lookup_zip_with_Some in Hi as (x & y & Heq & Hx & Hy).
      inversion Heq; subst. auto.
    - destruct Hi as [Hx Hy]. apply lookup_zip_with_Some. eauto. }
  split.
  - intros m. rewrite <- Hin. unfold dict_getitem.
    destruct (medthod_dict !! s); split; congruence.
  - unfold dict_getitem. destruct (medthod_dict !! s) as [m|] eqn:Hs.
    + split; [discriminate|]. intros Hnot. exfalso. apply Hnot.
      destruct (proj1 (Hin m) eq_refl) as (i & Hi & _).
      apply list_elem_of_In, list_elem_of_lookup. eauto.
    + split; [|reflexivity]. intros _ Hyes.
      apply list_elem_of_In, list_elem_of_lookup in Hyes as [i Hi].
      destruct (methods_as_const !! i) as [m|] eqn:Hm.
      * assert (@None ZMethod = Some m) by (apply Hin; eauto). discriminate.
      * apply lookup_lt_Some in Hi. apply lookup_ge_None in Hm.
        simpl in Hi, Hm. lia.
Qed.

(** The entry of the dialog's choice under position [p], and the constant
    it stands for; a position outside the list leaves the default, Max
    Intensity. *)
Lemma method_choice_value (p : nat) :
  dict_getitem medthod_dict
    (match methods_as_strings !! p with Some s => s | None => "Max Intensity" end)
  = Ok (nth p methods_as_const MAX_METHOD).
Proof.
  do 6 (destruct p as [|p]; [vm_compute; reflexivity|]).
  destruct p; vm_compute; reflexivity.
Qed.

(** ** The dialog of the TimeCompactor *)

(** [setupDialog] never raises and never touches the store: it shows one
    dialog, returns [None] (after a log line) exactly when the user
    cancels, and otherwise a dialog holding four numbers, one string and
    one choice that is a name of the method list. *)
Theorem setupDialog_outcome (user : UserInput) (imp : ref) (img : ImagePlus)
    (w : World) :
  heap w !! imp = Some img ->
  exists gd,
    setupDialog user imp w =
      (Ok (if cancel user then None else Some gd),
       mkWorld (heap w)
         (trace w ++ EvShowDialog "TimeCompactor options" ::
          (if cancel user then [EvLog "User canceled dialog!"] else []))) /\
    length (gd_numbers gd) = 4%nat /\
    length (gd_strings gd) = 1%nat /\
    exists s, gd_choices gd = [(methods_as_strings, s)] /\ In s methods_as_strings.
Proof.
  intros H. unfold setupDialog.
  step_with getTitle_run. step_with getCalibration_run.
  step_with getNFrames_run. step_with getFrame_run.
  step_with getNFrames_run. step_with getNFrames_run.
  step. step.
  match goal with |- context [gd_canceled ?g] => exists g end.
  split.
  - cbn [gd_canceled fill_in]. destruct (cancel user).
    + unfold bind, emit, ret. cbn [heap trace]. rewrite <- app_assoc. reflexivity.
    + reflexivity.
  - cbn [gd_numbers gd_strings gd_choices fill_in].
    rewrite !overlay_length. split; [reflexivity|]. split; [reflexivity|].
    cbn. destruct (picked user) as [|p pk].
    + eexists. split; [reflexivity|]. simpl. tauto.
    + eexists. split; [reflexivity|].
      destruct (methods_as_strings !! p) as [s|] eqn:Hs.
      * change (In s methods_as_strings).
        apply list_elem_of_In, list_elem_of_lookup. eauto.
      * simpl. tauto.
Qed.

(** ** The module body of the TimeCompactor *)

(** The names bound at the end of a run on valid bounds, as far as they
    come from the dialog and the projector. *)
Lemma run_valid_globals (img : ImagePlus) (fi : Q) (u : string) (a b n : Q)
    (p : nat) :
  1 <= py_int a <= py_int b ->
  py_int b <= Z.of_nat (getStackSize img) ->
  exists g w proj,
    run_deepTime_buddy (answers fi u a b n p) img = (Ok g, w) /\
    g_frame_interval g = fi /\
    g_time_unit g = u /\
    g_start_frame g = py_int a /\
    g_stop_frame g = py_int b /\
    g_no_frames_per_integral g = py_int n /\
    g_chosen_method g = nth p methods_as_const MAX_METHOD /\
    method (g_zp g) = nth p methods_as_const MAX_METHOD /\
    startSlice (g_zp g) = 1 /\
    g_zp1 g = Some proj /\
    heap w !! 0%nat = Some (with_calibration img (mkCalibration fi u)) /\
    (py_int a = 1 /\ py_int b = Z.of_nat (nFrames img) -> g_imp g = 0%nat) /\
    last (trace w) =
      Some (EvProject 0%nat 1 (stopSlice (g_zp g))
              (nth p methods_as_const MAX_METHOD) proj).
Proof.
  intros Hab Hb.
  pose proof (method_choice_value p) as Hm.
  unfold run_deepTime_buddy, deepTime_buddy, initial.
  step. step_with setupDialog_answers.
  step. step.
  erewrite calibrate_run by reflexivity.
  step. step.
  set (img' := with_calibration img (mkCalibration fi u)).
  change (<[0%nat:=img']> [img]) with [img'].
  destruct (decide (py_int a = 1 /\ py_int b = Z.of_nat (nFrames img')))
    as [[Ha Hfull]|Hsub].
  - rewrite Ha, Hfull.
    erewrite bind_ok
      by (eapply (select_full_range 0%nat img'); [reflexivity|lia]).
    tidy. step. step. step. rewrite Hm. step.
    step_with setStartSlice_one. step_with setStopSlice_ten.
    step_with doProjection_run. step. step. step. step.
    unfold ret. tidy.
    eexists _, _, _. split; [reflexivity|].
    cbn. repeat split; try reflexivity; try congruence.
  - destruct (Duplicator_run_ok 0%nat img' (py_int a) (py_int b)
                (mkWorld [img'] [EvShowDialog "TimeCompactor options"]))
      as (dup & Hrun & Hcal & Hst & Hnf); [reflexivity|lia|exact Hb|].
    erewrite bind_ok.
    2:{ rewrite (select_subrange 0%nat img'); [exact Hrun|reflexivity|lia|exact Hb|].
        destruct (decide (py_int a = 1)); [right|left]; tauto. }
    tidy. step. step. step. rewrite Hm. step.
    step_with setStartSlice_one. step_with setStopSlice_ten.
    step_with doProjection_run. step. step. step. step.
    unfold ret. tidy.
    eexists _, _, _. split; [reflexivity|].
    cbn. repeat split; try reflexivity.
    intros Hboth. exfalso. apply Hsub. exact Hboth.
Qed.

(** The method the user picks in the dialog is the one the projector is
    set to and the one the projection is made with: position [p] of the
    name list gives position [p] of the constant list, and a dialog left
    on its default gives Max Intensity. *)
Theorem chosen_method_matches_choice (img : ImagePlus) (fi : Q) (u : string)
    (a b n : Q) (p : nat) :
  1 <= py_int a <= py_int b ->
  py_int b <= Z.of_nat (getStackSize img) ->
  exists g w proj,
    run_deepTime_buddy (answers fi u a b n p) img = (Ok g, w) /\
    g_chosen_method g = nth p methods_as_const MAX_METHOD /\
    method (g_zp g) = nth p methods_as_const MAX_METHOD /\
    g_zp1 g = Some proj /\
    last (trace w) =
      Some (EvProject 0%nat 1 (stopSlice (g_zp g))
              (nth p methods_as_const MAX_METHOD) proj).
Proof.
  intros Hab Hb.
  destruct (run_valid_globals img fi u a b n p Hab Hb)
    as (g & w & proj & Hrun & _ & _ & _ & _ & _ & Hm & Hzm & _ & Hp & _ & _ & Hl).
  exists g, w, proj. repeat split; assumption.
Qed.

Lemma bind_agree {A : Type} (m : M A) (k k' : A -> M (@Globals Frame)) (w : World) :
  (forall a w', agree_up_to_window (k a w') (k' a w')) ->
  agree_up_to_window (bind m k w) (bind m k' w).
Proof.
  intros H. unfold bind. destruct (m w) as [[a|e] w'].
  - apply H.
  - split; reflexivity.
Qed.

(** Run the same statements on the left and on the right of a comparison. *)
Ltac on_both_sides tac :=
  match goal with
  | |- agree_up_to_window _ ?r =>
      let R := fresh "rhs" in set (R := r); tac; subst R
  end;
  match goal with
  | |- agree_up_to_window ?l _ =>
      let L := fresh "lhs" in set (L := l); tac; subst L
  end.

(** The number typed into 'Number of frames to project in to one' is read
    and recorded, and used for nothing: two runs that differ only in it
    end with the same store, the same trace of ImageJ calls and, apart
    from the recorded number, the same bindings or the same exception. *)
Theorem window_size_never_used (img : ImagePlus) (fi : Q) (u : string)
    (a b n n' : Q) (p : nat) :
  agree_up_to_window
    (run_deepTime_buddy (answers fi u a b n p) img)
    (run_deepTime_buddy (answers fi u a b n' p) img).
Proof.
  pose proof (method_choice_value p) as Hm.
  unfold run_deepTime_buddy, deepTime_buddy, initial.
  on_both_sides ltac:(step; step_with setupDialog_answers; step; step;
                      erewrite calibrate_run by reflexivity; step; step).
  apply bind_agree; intros imp' w1.
  apply bind_agree; intros total w2.
  on_both_sides ltac:(step; step; rewrite Hm; step).
  apply bind_agree; intros zp1 w3.
  apply bind_agree; intros zp2 w4.
  apply bind_agree; intros zp3 w5.
  apply bind_agree; intros st w6.
  apply bind_agree; intros st' w7.
  apply bind_agree; intros ttl w8.
  apply bind_agree; intros nc w9.
  split; reflexivity.
Qed.

(** The dialog accepted as it comes up holds its defaults. *)
Lemma setupDialog_untouched (imp : ref) (img : ImagePlus) (w : World) :
  heap w !! imp = Some img ->
  setupDialog untouched imp w =
  setupDialog
    (answers (if Qle_bool (frameInterval (calibration img)) 0 then 0%Q
              else frameInterval (calibration img))
             (timeUnit (calibration img))
             (inject_Z (Z.of_nat (frame img)))
             (inject_Z (Z.of_nat (nFrames img))) 10 1) imp w.
Proof.
  intros H. unfold setupDialog.
  step_with getTitle_run. step_with getCalibration_run.
  step_with getNFrames_run. step_with getFrame_run.
  step_with getNFrames_run. step_with getNFrames_run.
  step. symmetry.
  step_with getTitle_run. step_with getCalibration_run.
  step_with getNFrames_run. step_with getFrame_run.
  step_with getNFrames_run. step_with getNFrames_run.
  step. reflexivity.
Qed.

(** Accepting the TimeCompactor dialog as it comes up, on an image whose
    current frame lies inside its frames: compaction starts at the current
    frame and stops at the last one, 10 frames per projection are
    recorded, the method is Max Intensity, the time unit is kept, and the
    frame interval is written back as it was when positive and as 0
    otherwise. *)
Theorem untouched_dialog_defaults (img : ImagePlus) :
  (1 <= frame img <= nFrames img)%nat ->
  (nFrames img <= getStackSize img)%nat ->
  exists g w,
    run_deepTime_buddy untouched img = (Ok g, w) /\
    g_start_frame g = Z.of_nat (frame img) /\
    g_stop_frame g = Z.of_nat (nFrames img) /\
    g_no_frames_per_integral g = 10 /\
    g_chosen_method g = MAX_METHOD /\
    g_time_unit g = timeUnit (calibration img) /\
    g_frame_interval g =
      (if Qle_bool (frameInterval (calibration img)) 0 then 0%Q
       else frameInterval (calibration img)) /\
    calibration <$> heap w !! 0%nat =
      Some (mkCalibration (g_frame_interval g) (g_time_unit g)) /\
    (frame img = 1%nat -> g_imp g = 0%nat).
Proof.
  intros Hf Hn.
  set (fi := if Qle_bool (frameInterval (calibration img)) 0 then 0%Q
             else frameInterval (calibration img)).
  destruct (run_valid_globals img fi (timeUnit (calibration img))
              (inject_Z (Z.of_nat (frame img)))
              (inject_Z (Z.of_nat (nFrames img))) 10 1)
    as (g & w & proj & Hrun & Hfi & Hu & Ha & Hb & Hw & Hm & _ & _ & _ &
        Hheap & Himp & _).
  { rewrite !py_int_inject_Z. lia. }
  { rewrite py_int_inject_Z. lia. }
  rewrite !py_int_inject_Z in *.
  exists g, w. split.
  - rewrite <- Hrun.
    unfold run_deepTime_buddy, deepTime_buddy, initial.
    step. symmetry. step. symmetry.
    unfold bind at 1. rewrite (setupDialog_untouched 0%nat img) by reflexivity.
    reflexivity.
  - rewrite Hheap, Hfi, Hu. repeat split; try assumption.
    intros H1. apply Himp. rewrite H1. split; reflexivity.
Qed.

(** ** Selection and the store *)

(** Whatever the bounds, and whether it succeeds or fails, the selection
    never changes or removes an image of the store: it can only add the
    duplicate. *)
Theorem select_preserves_store (imp : ref) (a b : Z) (w : World) :
  exists extra : list ImagePlus,
    heap (snd (select imp a b w)) = (heap w ++ extra)%list /\
    (length extra <= 1)%nat.
Proof.
  assert (Hdup : exists extra : list ImagePlus,
            heap (snd (Duplicator_run imp a b w)) = (heap w ++ extra)%list /\
            (length extra <= 1)%nat).
  { unfold Duplicator_run, bind, deref.
    destruct (heap w !! imp) as [img|].
    - destruct ((1 <=? a) && (a <=? b) && (b <=? Z.of_nat (getStackSize img))).
      + eexists [_]. split; [reflexivity|simpl; lia].
      + exists []. rewrite app_nil_r. split; [reflexivity|simpl; lia].
    - exists []. rewrite app_nil_r. split; [reflexivity|simpl; lia]. }
  unfold select, bind.
  destruct (a >? b).
  - exists []. rewrite app_nil_r. split; [reflexivity|simpl; lia].
  - simpl. destruct (negb (a =? 1)); [exact Hdup|].
    unfold getNFrames, bind, deref.
    destruct (heap w !! imp) as [img|] eqn:Himg.
    + simpl. destruct (negb (b =? Z.of_nat (nFrames img))); [exact Hdup|].
      exists []. rewrite app_nil_r. split; [reflexivity|simpl; lia].
    + exists []. rewrite app_nil_r. split; [reflexivity|simpl; lia].
Qed.

(** ** Channel extraction and the store *)

(** A channel number in (-nChannels, 0] does not fail: Python's indexing
    counts it from the end, so the image of channel [channelno +
    nChannels] comes back. *)
Theorem channelSelector_wraps (imp : ref) (img : ImagePlus) (c : Z) (w : World) :
  heap w !! imp = Some img ->
  - Z.of_nat (nChannels img) < c <= 0 ->
  exists r w',
    channelSelector imp c w = (Ok r, w') /\
    heap w' !! r =
      Some (channel_image img (Z.to_nat (c + Z.of_nat (nChannels img) - 1))).
Proof.
  intros Himg Hc.
  rewrite (channelSelector_run _ _ _ _ Himg).
  set (n := nChannels img) in *.
  exists (length (heap w) + Z.to_nat (c + Z.of_nat n - 1))%nat. eexists.
  split.
  - f_equal. unfold py_getitem. rewrite length_seq.
    replace (c - 1 <? 0) with true by lia.
    replace (0 <=? c - 1 + Z.of_nat n) with true by lia.
    replace (c - 1 + Z.of_nat n <? Z.of_nat n) with true by lia.
    simpl. rewrite lookup_seq_lt by lia.
    do 3 f_equal. lia.
  - simpl. rewrite lookup_app_r by lia.
    replace (length (heap w) + Z.to_nat (c + Z.of_nat n - 1) - length (heap w))%nat
      with (Z.to_nat (c + Z.of_nat n - 1)) by lia.
    rewrite list_lookup_fmap, lookup_seq_lt by lia. reflexivity.
Qed.


(** ** The FRAP set-up *)

(** On an image with at least one channel, and with finite numbers in the
    numeric fields of the dialog, [FRAPsetup] does not raise: it returns
    [None] exactly when the dialog is cancelled (leaving the store as it
    was), and otherwise a tuple whose image is one of the split
    channels. *)
Theorem FRAPsetup_outcome (user : UserInput) (img : ImagePlus) :
  (1 <= nChannels img)%nat ->
  (cancel user = true ->
     FRAPsetup user 0%nat (initial img) =
       (Ok None,
        mkWorld [img] [EvShowDialog "FRAP analysis options";
                       EvLog "User canceled dialog!"])) /\
  (cancel user = false ->
     exists (c : nat) (max_frame manual_frame : Z) (auto : bool) (w : World),
       (1 <= c <= nChannels img)%nat /\
       FRAPsetup user 0%nat (initial img) =
         (Ok (Some (c, max_frame, manual_frame, auto)), w) /\
       stack <$> heap w !! c =
         Some (channel_planes (nChannels img) (c - 1) (stack img))).
Proof.
  intros Hn. split; intros Hc.
  - destruct user as [c tn ts pk tk]. simpl in Hc. subst c.
    apply FRAPsetup_canceled, Hn.
  - destruct (every_FRAP_user_is_answers user img Hc)
      as (fi & cpos & mf & k & auto & Heq).
    destruct (FRAPsetup_run img fi cpos mf k auto Hn) as (c & Hcn & _ & Hrun).
    rewrite Heq, Hrun. eexists c, _, _, _, _.
    split; [exact Hcn|]. split; [reflexivity|].
    cbn [heap]. destruct c as [|c']; [lia|].
    rewrite lookup_cons_ne_0 by lia. cbn [Nat.pred].
    rewrite list_lookup_fmap, lookup_seq_lt by lia. cbn.
    replace (c' - 0)%nat with c' by lia. reflexivity.
Qed.

(** A successful [FRAPsetup] leaves the image it was given in the store
    with its title, dimensions, planes and time unit; only the frame
    interval is overwritten, with the number of the dialog.  The image it
    returns is another object. *)
Theorem FRAPsetup_keeps_source (img : ImagePlus) (fi : Q) (cpos : nat)
    (mf k : Q) (auto : bool) :
  (1 <= nChannels img)%nat ->
  exists (r : ref) (w : World) (src : ImagePlus),
    FRAPsetup (FRAP_answers fi cpos mf k auto) 0%nat (initial img) =
      (Ok (Some (r, py_int mf, py_int k, auto)), w) /\
    r <> 0%nat /\
    heap w !! 0%nat = Some src /\
    stack src = stack img /\
    title src = title img /\
    nChannels src = nChannels img /\
    nFrames src = nFrames img /\
    timeUnit (calibration src) = timeUnit (calibration img) /\
    frameInterval (calibration src) = fi.
Proof.
  intros Hn.
  destruct (FRAPsetup_run img fi cpos mf k auto Hn) as (c & Hcn & _ & Hrun).
  eexists c, _, _. split; [exact Hrun|].
  split; [lia|]. split; [reflexivity|]. repeat split.
Qed.

(** The module body on a dialog that is not cancelled: the four values
    returned by [FRAPsetup] are unpacked and printed; the last of them,
    bound to the name [manualFRAPflag], is the state of the automatic
    checkbox. *)
Theorem dialog_FRAP_prints_result (img : ImagePlus) (fi : Q) (cpos : nat)
    (mf k : Q) (auto : bool) :
  (1 <= nChannels img)%nat ->
  exists (c : nat) (w : World),
    (1 <= c <= nChannels img)%nat /\
    run_dialog_FRAP (FRAP_answers fi cpos mf k auto) img =
      (Ok (c, py_int mf, py_int k, auto), w) /\
    trace w =
      [EvShowDialog "FRAP analysis options";
       EvSplit 0%nat (seq 1 (nChannels img));
       EvPrint c (py_int mf) (py_int k) auto].
Proof.
  intros Hn.
  destruct (FRAPsetup_run img fi cpos mf k auto Hn) as (c & Hcn & _ & Hrun).
  exists c. eexists. split; [exact Hcn|].
  unfold run_dialog_FRAP, dialog_FRAP.
  rewrite (bind_ok _ _ _ _ _ Hrun). split; reflexivity.
Qed.

(** ** How a TimeCompactor run can end *)

(** With finite numbers in the numeric fields, a run whose dialog is not
    cancelled ends in one of three ways, decided by the integer parts of
    the two frame bounds alone: it stops at the range check, right after
    the message box, when start > stop; otherwise it completes when the
    bounds are the full range or lie inside the stack; otherwise it stops
    in the duplication, with nothing but the dialog in the trace.  Once
    the selection has succeeded nothing later in the script fails. *)
Theorem run_outcomes (img : ImagePlus) (fi : Q) (u : string) (a b n : Q)
    (p : nat) :
  let r := run_deepTime_buddy (answers fi u a b n p) img in
  let full := py_int a = 1 /\ py_int b = Z.of_nat (nFrames img) in
  let inside := 1 <= py_int a /\ py_int b <= Z.of_nat (getStackSize img) in
  (py_int a > py_int b /\
   (exists e, fst r = Raise e) /\
   last (trace (snd r)) = Some (EvShowMessage "Start frame > Stop frame!")) \/
  (py_int a <= py_int b /\ (full \/ inside) /\ exists g, fst r = Ok g) \/
  (py_int a <= py_int b /\ ~ full /\ ~ inside /\
   (exists e, fst r = Raise e) /\
   trace (snd r) = [EvShowDialog "TimeCompactor options"]).
Proof.
  intros r full inside. subst r full inside.
  destruct (Z_gt_le_dec (py_int a) (py_int b)) as [Hgt|Hle].
  { left. split; [exact Hgt|]. rewrite (run_start_after_stop _ _ _ _ _ _ _ Hgt).
    split; [eexists; reflexivity|reflexivity]. }
  right.
  pose proof (method_choice_value p) as Hm.
  unfold run_deepTime_buddy, deepTime_buddy, initial.
  step. step_with setupDialog_answers.
  step. step.
  erewrite calibrate_run by reflexivity.
  step. step.
  set (img' := with_calibration img (mkCalibration fi u)).
  change (<[0%nat:=img']> [img]) with [img'].
  destruct (decide (py_int a = 1 /\ py_int b = Z.of_nat (nFrames img)))
    as [[Ha Hfull]|Hsub].
  - left. split; [exact Hle|]. split; [left; split; assumption|].
    rewrite Ha, Hfull.
    erewrite bind_ok
      by (eapply (select_full_range 0%nat img'); [reflexivity|simpl; lia]).
    tidy. step. step. step. rewrite Hm. step.
    step_with setStartSlice_one. step_with setStopSlice_ten.
    step_with doProjection_run. step. step. step. step.
    eexists. reflexivity.
  - destruct (decide (1 <= py_int a /\ py_int b <= Z.of_nat (getStackSize img)))
      as [[H1 Hb]|Hout].
    + left. split; [exact Hle|]. split; [right; split; assumption|].
      destruct (Duplicator_run_ok 0%nat img' (py_int a) (py_int b)
                  (mkWorld [img'] [EvShowDialog "TimeCompactor options"]))
        as (dup & Hrun & Hcal & Hst & Hnf); [reflexivity|lia|exact Hb|].
      erewrite bind_ok.
      2:{ rewrite (select_subrange 0%nat img');
            [exact Hrun|reflexivity|lia|exact Hb|].
          change (nFrames img') with (nFrames img).
          destruct (decide (py_int a = 1)); [right|left]; tauto. }
      tidy. step. step. step. rewrite Hm. step.
      step_with setStartSlice_one. step_with setStopSlice_ten.
      step_with doProjection_run. step. step. step. step.
      eexists. reflexivity.
    + right. split; [exact Hle|]. split; [exact Hsub|]. split; [exact Hout|].
      assert (Hdup : Duplicator_run 0%nat (py_int a) (py_int b)
                (mkWorld [img'] [EvShowDialog "TimeCompactor options"]) =
              (Raise (JavaException "IllegalArgumentException"),
               mkWorld [img'] [EvShowDialog "TimeCompactor options"])).
      { unfold Duplicator_run.
        erewrite bind_ok by (apply deref_run; reflexivity).
        change (getStackSize img') with (getStackSize img).
        destruct ((1 <=? py_int a) && (py_int a <=? py_int b) &&
                  (py_int b <=? Z.of_nat (getStackSize img))) eqn:Hg;
          [|reflexivity].
        exfalso. apply Hout. lia. }
      assert (Hsel : select 0%nat (py_int a) (py_int b)
                (mkWorld [img'] [EvShowDialog "TimeCompactor options"]) =
              (Raise (JavaException "IllegalArgumentException"),
               mkWorld [img'] [EvShowDialog "TimeCompactor options"])).
      { unfold select, bind.
        replace (py_int a >? py_int b) with false by lia. simpl.
        destruct (py_int a =? 1) eqn:Ha1; simpl; [|exact Hdup].
        unfold getNFrames, bind, deref. simpl.
        destruct (py_int b =? Z.of_nat (nFrames img)) eqn:Hbn; simpl;
          [|exact Hdup].
        exfalso. apply Hsub. lia. }
      rewrite (bind_raise _ _ _ _ _ Hsel).
      split; [eexists; reflexivity|reflexivity].
Qed.

(** With start > stop the run ends at the range check, but only after
    lines 54-56 have run: the message is shown, no duplication or
    projection has happened, and the image already carries the frame
    interval and time unit of the dialog. *)
Theorem range_check_after_calibration (img : ImagePlus) (fi : Q) (u : string)
    (a b n : Q) (p : nat) :
  py_int a > py_int b ->
  exists w,
    run_deepTime_buddy (answers fi u a b n p) img =
      (Raise (RuntimeException "Start frame > Stop frame!"), w) /\
    calibration <$> heap w !! 0%nat = Some (mkCalibration fi u) /\
    stack <$> heap w !! 0%nat = Some (stack img) /\
    length (heap w) = 1%nat /\
    last (trace w) = Some (EvShowMessage "Start frame > Stop frame!") /\
    existsb is_core (trace w) = false.
Proof.
  intros Hgt. eexists. split; [apply run_start_after_stop, Hgt|].
  repeat split.
Qed.

End Properties.

(** * The claims on concrete runs *)

(** ** Frame-range selection *)

Lemma select_start_after_stop_witness :
  5 > 3 /\
  select 0%nat 5 3 (initial (series 10)) =
    (Raise (RuntimeException "Start frame > Stop frame!"),
     mkWorld [series 10] [EvShowMessage "Start frame > Stop frame!"]).
Proof.
  split; [lia|].
  apply (select_start_after_stop 0%nat 5 3 (initial (series 10))). lia.
Defined.

Lemma select_full_range_identity_witness :
  select 0%nat 1 3 (initial (series 3)) = (Ok 0%nat, initial (series 3)) /\
  heap (snd (select 0%nat 1 3 (initial (series 3)))) !! 0%nat = Some (series 3) /\
  length (heap (snd (select 0%nat 1 3 (initial (series 3))))) = 1%nat.
Proof.
  apply (select_full_range_identity 0%nat (series 3) (initial (series 3)));
    [reflexivity|simpl; lia].
Defined.

(** ** Channel extraction *)

(** Channel number 0 is outside [1, 2], yet the call does not fail: the
    index -1 selects the last element of the split, the image of channel
    2. *)
Lemma channelSelector_zero_counterexample :
  ~ (1 <= 0 <= Z.of_nat (nChannels two_channels)) /\
  fst (channelSelector 0%nat 0 (initial two_channels)) = Ok 2%nat /\
  stack <$> heap (snd (channelSelector 0%nat 0 (initial two_channels))) !! 2%nat
    = Some [Pixel 20; Pixel 21; Pixel 22] /\
  fst (channelSelector 0%nat 0 (initial two_channels)) <> Raise IndexError.
Proof.
  split; [simpl; lia|].
  split; [vm_compute; reflexivity|].
  split; [vm_compute; reflexivity|].
  vm_compute. discriminate.
Qed.

Lemma channelSelector_spec_witness :
  (exists r w',
     channelSelector 0%nat 2 (initial two_channels) = (Ok r, w') /\
     stack <$> heap w' !! r = Some [Pixel 20; Pixel 21; Pixel 22]) /\
  fst (channelSelector 0%nat 3 (initial two_channels)) = Raise IndexError /\
  fst (channelSelector 0%nat (-2) (initial two_channels)) = Raise IndexError.
Proof.
  pose proof (channelSelector_spec 0%nat two_channels 2 (initial two_channels)
                eq_refl) as [Hin _].
  pose proof (channelSelector_spec 0%nat two_channels 3 (initial two_channels)
                eq_refl) as [_ Habove].
  pose proof (channelSelector_spec 0%nat two_channels (-2) (initial two_channels)
                eq_refl) as [_ Hbelow].
  split; [|split].
  - destruct Hin as (r & w' & Hrun & Hheap & _); [simpl; lia|].
    exists r, w'. split; [exact Hrun|]. rewrite Hheap. reflexivity.
  - apply Habove. left. simpl. lia.
  - apply Hbelow. right. simpl. lia.
Defined.

(** ** Temporal compaction *)

(** C1: a 95-frame series with 10 frames per projection.  Compaction into
    windows of 10 frames with a partial last window gives ceil(95 / 10) =
    10 output frames; the run reads the window size 10 and the frame count
    95, makes one projection and leaves the collecting stack empty. *)
Lemma compact_95_by_10_counterexample :
  let r := run_deepTime_buddy Reduced (answers 1 "sec" 1 95 10 0) (series 95) in
  ceil_div 95 10 = 10%nat /\
  (exists g,
     fst r = Ok g /\
     g_total_no_frames_to_project g = 95%nat /\
     g_no_frames_per_integral g = 10 /\
     length (g_stack_track g) <> ceil_div 95 10) /\
  length (projections (trace (snd r))) = 1%nat /\
  length (projections (trace (snd r))) <> ceil_div 95 10.
Proof.
  vm_compute. split; [reflexivity|]. split.
  - eexists. split; [reflexivity|]. simpl. repeat split; discriminate.
  - split; [reflexivity|discriminate].
Qed.

Lemma compact_single_projection_witness :
  exists g w,
    run_deepTime_buddy Reduced (answers 1 "sec" 1 95 10 0) (series 95) = (Ok g, w) /\
    g_no_frames_per_integral g = 10 /\
    length (projections (trace w)) = 1%nat /\
    g_stack_track g = [].
Proof.
  destruct (compact_single_projection Reduced (series 95) 1 "sec" 1 95 10 0)
    as (g & w & Hrun & Hn & _ & Hone & Htrack & _).
  - vm_compute. split; discriminate.
  - vm_compute. discriminate.
  - vm_compute. discriminate.
  - exists g, w. repeat split; assumption.
Defined.

(** The dialog gives 2.5 min; the projected image, the output frame of the
    run, ends with the calibration 0 sec. *)
Lemma output_calibration_counterexample :
  let r := run_deepTime_buddy Reduced (answers 2.5 "min" 3 12 5 0) (series 20) in
  (exists g, fst r = Ok g /\ g_zp1 g = Some 2%nat) /\
  calibration <$> heap (snd r) !! 2%nat = Some (mkCalibration 0 "sec") /\
  mkCalibration 0 "sec" <> mkCalibration 2.5 "min".
Proof.
  vm_compute. split; [|split].
  - eexists. split; reflexivity.
  - reflexivity.
  - discriminate.
Qed.

Lemma calibration_set_on_working_image_only_witness :
  exists g w out proj pimg,
    run_deepTime_buddy Reduced (answers 2.5 "min" 3 12 5 0) (series 20) = (Ok g, w) /\
    heap w !! g_imp g = Some out /\
    calibration out = mkCalibration 2.5 "min" /\
    calibration <$> heap w !! 0%nat = Some (mkCalibration 2.5 "min") /\
    g_zp1 g = Some proj /\
    heap w !! proj = Some pimg /\
    calibration pimg = default_calibration.
Proof.
  apply (calibration_set_on_working_image_only Reduced (series 20) 2.5 "min" 3 12 5 0).
  - vm_compute. split; discriminate.
  - vm_compute. discriminate.
Defined.

Lemma projection_reads_original_stack_witness :
  exists g w proj pimg,
    run_deepTime_buddy Reduced (answers 2.5 "min" 3 12 5 0) (series 20) = (Ok g, w) /\
    zp_imp (g_zp g) = 0%nat /\
    projected_sources (trace w) = [0%nat] /\
    g_zp1 g = Some proj /\
    heap w !! proj = Some pimg /\
    stack pimg = [Reduced (g_chosen_method g) (firstn 10 (stack (series 20)))] /\
    (g_imp g = 0%nat \/
     g_imp g <> zp_imp (g_zp g) /\
     In (EvDuplicate 0%nat 3 12 (g_imp g)) (trace w)).
Proof.
  apply (projection_reads_original_stack Reduced (series 20) 2.5 "min" 3 12 5 0).
  - vm_compute. split; discriminate.
  - vm_compute. discriminate.
Defined.

(** Frames 3 to 12 are selected and duplicated, yet the projection is the
    average of planes 1 to 10 of the image the script started from. *)
Example projection_of_a_subrange :
  let r := run_deepTime_buddy Reduced (answers 2.5 "min" 3 12 5 0) (series 20) in
  trace (snd r) =
    [EvShowDialog "TimeCompactor options";
     EvDuplicate 0%nat 3 12 1%nat;
     EvProject 0%nat 1 10 AVG_METHOD 2%nat] /\
  stack <$> heap (snd r) !! 2%nat =
    Some [Reduced AVG_METHOD
            [Pixel 1; Pixel 2; Pixel 3; Pixel 4; Pixel 5;
             Pixel 6; Pixel 7; Pixel 8; Pixel 9; Pixel 10]].
Proof. vm_compute. split; reflexivity. Qed.

(** ** Cancelling *)

Example cancel_on_a_series :
  fst (run_deepTime_buddy Reduced (mkUser true [] [] [] []) (series 5)) =
    Raise (AttributeError "NoneType" "getNextNumber") /\
  fst (run_dialog_FRAP (mkUser true [] [] [] []) two_channels) =
    Raise (TypeError "'NoneType' object is not iterable") /\
  existsb is_core
    (trace (snd (run_deepTime_buddy Reduced (mkUser true [] [] [] []) (series 5))) ++
     trace (snd (run_dialog_FRAP (mkUser true [] [] [] []) two_channels))) = false.
Proof. vm_compute. repeat split; reflexivity. Qed.

(** ** Bleach-frame set-up *)

(** Manual mode with the manual field at 0 on a five-frame series: 0 is
    outside [1, 5], and the set-up returns it instead of failing. *)
Lemma manual_index_zero_counterexample :
  let r := FRAPsetup (FRAP_answers 0 0 30 0 false) 0%nat (initial (series 5)) in
  nFrames (series 5) = 5%nat /\
  ~ (1 <= 0 <= Z.of_nat (nFrames (series 5))) /\
  fst r = Ok (Some (1%nat, 30, 0, false)) /\
  (forall e, fst r <> Raise e).
Proof.
  vm_compute. repeat split; try reflexivity; try discriminate.
  intros [H _]. apply H. reflexivity.
Qed.

Lemma manual_index_passed_through_witness :
  exists r w,
    FRAPsetup (FRAP_answers 0 0 30 7 false) 0%nat (initial (series 5)) =
      (Ok (Some (r, 30, 7, false)), w).
Proof.
  apply (manual_index_passed_through (series 5) 0 0 30 7). simpl. lia.
Defined.

(** Automatic mode, dialog left as it comes up, on a series whose
    intensity increases from frame to frame: the set-up does not fail and
    hands back frame index 0. *)
Lemma automatic_increasing_counterexample :
  let r := FRAPsetup untouched 0%nat (initial (series 5)) in
  stack (series 5) = [Pixel 1; Pixel 2; Pixel 3; Pixel 4; Pixel 5] /\
  fst r = Ok (Some (1%nat, 30, 0, true)) /\
  (forall e, fst r <> Raise e).
Proof.
  vm_compute. repeat split; try reflexivity; discriminate.
Qed.

Lemma automatic_mode_returns_manual_field_witness :
  (exists r w,
     FRAPsetup (FRAP_answers 0 0 30 4 true) 0%nat (initial (series 5)) =
       (Ok (Some (r, 30, 4, true)), w)) /\
  (exists r w,
     FRAPsetup (FRAP_answers 0 0 30 0 true) 0%nat (initial (series 5)) =
       (Ok (Some (r, 30, 0, true)), w)).
Proof.
  apply (automatic_mode_returns_manual_field (series 5) 0 0 30 4). simpl. lia.
Defined.

Lemma dialog_channel_in_bounds_witness :
  exists (c : nat) (imps : list ref) (r : ref) w,
    py_int_of_string "2" = Ok (Z.of_nat c) /\
    (1 <= c <= 2)%nat /\
    FRAPsetup (FRAP_answers 0 1 30 0 true) 0%nat (initial two_channels) =
      (Ok (Some (r, 30, 0, true)), w) /\
    In (EvSplit 0%nat imps) (trace w) /\
    length imps = 2%nat /\
    0 <= Z.of_nat c - 1 < Z.of_nat (length imps) /\
    py_getitem imps (Z.of_nat c - 1) = Ok r.
Proof.
  apply (dialog_channel_in_bounds two_channels 0 1 30 0 true). simpl. lia.
Defined.

(** * The further properties on concrete runs *)

Lemma range_check_after_calibration_witness :
  exists w,
    run_deepTime_buddy Reduced (answers 2.5 "min" 7 3 10 0) (series 10) =
      (Raise (RuntimeException "Start frame > Stop frame!"), w) /\
    calibration <$> heap w !! 0%nat = Some (mkCalibration 2.5 "min") /\
    stack <$> heap w !! 0%nat = Some (stack (series 10)) /\
    length (heap w) = 1%nat /\
    last (trace w) = Some (EvShowMessage "Start frame > Stop frame!") /\
    existsb is_core (trace w) = false.
Proof.
  apply (range_check_after_calibration Reduced (series 10) 2.5 "min" 7 3 10 0).
  vm_compute. reflexivity.
Defined.

Lemma chosen_method_matches_choice_witness :
  exists g w proj,
    run_deepTime_buddy Reduced (answers 1 "sec" 1 20 10 3) (series 20) = (Ok g, w) /\
    g_chosen_method g = SUM_METHOD /\
    method (g_zp g) = SUM_METHOD /\
    g_zp1 g = Some proj /\
    last (trace w) =
      Some (EvProject 0%nat 1 (stopSlice (g_zp g)) SUM_METHOD proj).
Proof.
  apply (chosen_method_matches_choice Reduced (series 20) 1 "sec" 1 20 10 3).
  - vm_compute. split; discriminate.
  - vm_compute. discriminate.
Defined.

Lemma setupDialog_outcome_witness :
  exists gd,
    setupDialog (mkUser false [1%Q] [] [4%nat] []) 0%nat (initial (series 8)) =
      (Ok (Some gd),
       mkWorld [series 8] [EvShowDialog "TimeCompactor options"]) /\
    length (gd_numbers gd) = 4%nat /\
    length (gd_strings gd) = 1%nat /\
    exists s, gd_choices gd = [(methods_as_strings, s)] /\ In s methods_as_strings.
Proof.
  apply (setupDialog_outcome (mkUser false [1%Q] [] [4%nat] []) 0%nat (series 8)
           (initial (series 8))).
  reflexivity.
Defined.

Lemma untouched_dialog_defaults_witness :
  exists g w,
    run_deepTime_buddy Reduced untouched (series 12) = (Ok g, w) /\
    g_start_frame g = 1 /\
    g_stop_frame g = 12 /\
    g_no_frames_per_integral g = 10 /\
    g_chosen_method g = MAX_METHOD /\
    g_time_unit g = "sec" /\
    g_frame_interval g = 0%Q /\
    calibration <$> heap w !! 0%nat =
      Some (mkCalibration (g_frame_interval g) (g_time_unit g)) /\
    (1%nat = 1%nat -> g_imp g = 0%nat).
Proof.
  apply (untouched_dialog_defaults Reduced (series 12)).
  - simpl. lia.
  - vm_compute. lia.
Defined.

(** Windows of 3 and of 7 frames on the same 20-frame series: both runs
    complete, and with the same projection. *)
Example window_3_and_window_7 :
  let r3 := run_deepTime_buddy Reduced (answers 1 "sec" 1 20 3 0) (series 20) in
  let r7 := run_deepTime_buddy Reduced (answers 1 "sec" 1 20 7 0) (series 20) in
  snd r3 = snd r7 /\
  (exists g3 g7, fst r3 = Ok g3 /\ fst r7 = Ok g7 /\
     g_no_frames_per_integral g3 = 3 /\ g_no_frames_per_integral g7 = 7 /\
     g_zp1 g3 = g_zp1 g7) /\
  trace (snd r3) =
    [EvShowDialog "TimeCompactor options"; EvProject 0%nat 1 10 AVG_METHOD 1%nat].
Proof.
  vm_compute. split; [reflexivity|]. split; [|reflexivity].
  eexists _, _. repeat split; reflexivity.
Qed.

Lemma channelSelector_wraps_witness :
  exists r w',
    channelSelector 0%nat (-1) (initial two_channels) = (Ok r, w') /\
    stack <$> heap w' !! r = Some [Pixel 10; Pixel 11; Pixel 12].
Proof.
  destruct (channelSelector_wraps 0%nat two_channels (-1) (initial two_channels))
    as (r & w' & Hrun & Hheap); [reflexivity|simpl; lia|].
  exists r, w'. split; [exact Hrun|]. rewrite Hheap. reflexivity.
Defined.


Lemma FRAPsetup_outcome_witness :
  FRAPsetup (mkUser true [] [] [] []) 0%nat (initial two_channels) =
    (Ok None,
     mkWorld [two_channels] [EvShowDialog "FRAP analysis options";
                             EvLog "User canceled dialog!"]) /\
  exists (c : nat) (max_frame manual_frame : Z) (auto : bool) w,
    (1 <= c <= 2)%nat /\
    FRAPsetup (mkUser false [] [] [1%nat] [false]) 0%nat (initial two_channels) =
      (Ok (Some (c, max_frame, manual_frame, auto)), w) /\
    stack <$> heap w !! c =
      Some (channel_planes 2 (c - 1) (stack two_channels)).
Proof.
  split.
  - apply (FRAPsetup_outcome (mkUser true [] [] [] []) two_channels);
      [simpl; lia|reflexivity].
  - apply (FRAPsetup_outcome (mkUser false [] [] [1%nat] [false]) two_channels);
      [simpl; lia|reflexivity].
Defined.

Lemma FRAPsetup_keeps_source_witness :
  exists (r : ref) w src,
    FRAPsetup (FRAP_answers 0.5 1 30 4 false) 0%nat (initial two_channels) =
      (Ok (Some (r, 30, 4, false)), w) /\
    r <> 0%nat /\
    heap w !! 0%nat = Some src /\
    stack src = stack two_channels /\
    title src = "frap" /\
    nChannels src = 2%nat /\
    nFrames src = 3%nat /\
    timeUnit (calibration src) = "sec" /\
    frameInterval (calibration src) = 0.5%Q.
Proof.
  apply (FRAPsetup_keeps_source two_channels 0.5 1 30 4 false). simpl. lia.
Defined.

Lemma dialog_FRAP_prints_result_witness :
  exists (c : nat) w,
    (1 <= c <= 2)%nat /\
    run_dialog_FRAP (FRAP_answers 0.5 1 30 4 false) two_channels =
      (Ok (c, 30, 4, false), w) /\
    trace w =
      [EvShowDialog "FRAP analysis options";
       EvSplit 0%nat [1%nat; 2%nat];
       EvPrint c 30 4 false].
Proof.
  apply (dialog_FRAP_prints_result two_channels 0.5 1 30 4 false). simpl. lia.
Defined.
